(** * Pefindo JSON extractor: a shallow embedding of [json_extractor_nonapi.py]

    The extractor turns one nested credit-bureau report into flat tables.
    This file embeds the functions of the script that decide how tables are
    built ([clean_column_names], [extract_list_to_dataframe],
    [extract_facilities_history], [extract_pefindo_data]) together with the
    part of pandas they call, and proves properties of them. *)

From Stdlib Require Import String Ascii List ZArith Bool Arith Lia.
Import ListNotations.
Set Warnings "-register-all".
Open Scope string_scope.
Open Scope list_scope.

(** ** Values held in table cells

    A cell holds what [json.load] produces (null, booleans, numbers, strings,
    arrays, objects) or the missing-value marker NaN that pandas fills in.
    Numbers are integers; a mapping keeps its keys in insertion order. *)

Inductive value : Type :=
| VNone
| VNaN
| VBool (b : bool)
| VInt (z : Z)
| VStr (s : string)
| VList (l : list value)
| VDict (d : list (string * value)).

(** Python's [bool(v)], the test behind [if item_list:]. NaN is a non-zero
    float and therefore true. *)
Definition truthy (v : value) : bool :=
  match v with
  | VNone => false
  | VNaN => true
  | VBool b => b
  | VInt z => negb (Z.eqb z 0)
  | VStr s => negb (String.eqb s "")
  | VList l => match l with [] => false | _ => true end
  | VDict d => match d with [] => false | _ => true end
  end.

(** [len(v)] for an array cell, and 0 for anything that is not an array. *)
Definition array_len (v : value) : nat :=
  match v with
  | VList l => length l
  | _ => 0
  end.

(** ** Outcomes

    The Python exceptions the extractor can meet, plus [EmptyInputError],
    the name the specification gives to a condition no code path raises. *)

Inductive exn : Type :=
| KeyError
| TypeError
| ValueError
| AttributeError
| IndexError
| EmptyInputError.

(** A call returns, raises, or leaves the fragment of pandas described here
    ([Unmodelled]: frames built from arrays with elements that are not
    mappings or from a bare mapping, assignment of a mapping to a column,
    labels that occur twice where pandas needs one, the labels of a frame
    that has rows but no columns). *)
Inductive outcome (A : Type) : Type :=
| Ok (a : A)
| Raise (e : exn)
| Unmodelled.

Arguments Ok {A} a.
Arguments Raise {A} e.
Arguments Unmodelled {A}.

Definition bind {A B : Type} (m : outcome A) (k : A -> outcome B) : outcome B :=
  match m with
  | Ok a => k a
  | Raise e => Raise e
  | Unmodelled => Unmodelled
  end.

Notation "x <- m ;; k" := (bind m (fun x => k))
  (at level 61, m at next level, right associativity).

(** ** Strings: [str.replace] and [in] *)

Fixpoint starts_with (p s : string) : bool :=
  match p with
  | EmptyString => true
  | String a p' =>
      match s with
      | EmptyString => false
      | String b s' => Ascii.eqb a b && starts_with p' s'
      end
  end.

(** [old in s] for a non-empty [old]: some suffix of [s] starts with it. *)
Fixpoint contains (old s : string) : bool :=
  starts_with old s ||
  match s with
  | EmptyString => false
  | String _ s' => contains old s'
  end.

(** [s.replace(old, new)] with a non-empty [old]: a left-to-right scan that
    replaces every non-overlapping occurrence. [skip] counts the characters
    of a matched occurrence still to be dropped. *)
Fixpoint replace_from (old new : string) (skip : nat) (s : string) : string :=
  match s with
  | EmptyString => EmptyString
  | String c s' =>
      match skip with
      | S k => replace_from old new k s'
      | O =>
          if starts_with old s
          then new ++ replace_from old new (String.length old - 1) s'
          else String c (replace_from old new 0 s')
      end
  end.

Definition str_replace (old new s : string) : string :=
  replace_from old new 0 s.

(** ** Tables

    A [DataFrame] is a list of column labels and the rows under them, each
    row holding one cell per label. The row index is always 0..n-1 (frames
    come from [json_normalize] or from [concat(..., ignore_index=True)]). *)

Record DataFrame : Type := mkDF {
  columns : list string;
  data : list (list value)
}.

Definition nrows (df : DataFrame) : nat := length (data df).

(** [pd.DataFrame()] *)
Definition empty_frame : DataFrame := mkDF [] [].

(** Every row has one cell per column. *)
Definition well_formed (df : DataFrame) : Prop :=
  Forall (fun r => length r = length (columns df)) (data df).

(** ** clean_column_names *)

Definition clean_name (c : string) : string :=
  str_replace "report.header." "" (str_replace "report.debitur." "" c).

(** The table after [df.columns = df.columns.str.replace(...)] twice. The
    [.str] accessor needs string labels: [pd.DataFrame()], without rows and
    without labels, has a RangeIndex for columns, and line 19 raises
    AttributeError on it. A frame with rows but no labels (built from
    mappings without keys) is left out: what index it has for columns
    depends on how pandas built it. *)
Definition clean_columns (df : DataFrame) : outcome DataFrame :=
  match columns df, data df with
  | [], [] => Raise AttributeError
  | [], _ :: _ => Unmodelled
  | _ :: _, _ => Ok (mkDF (map clean_name (columns df)) (data df))
  end.

(** Tables are Python objects: a variable holds a reference into a store.
    [clean_column_names] assigns to [df.columns] of the object it is given
    and returns that same reference. *)
Definition ref := nat.
Definition store := list DataFrame.

Fixpoint update (h : store) (r : ref) (df : DataFrame) : store :=
  match h, r with
  | [], _ => []
  | _ :: h', O => df :: h'
  | d :: h', S r' => d :: update h' r' df
  end.

Definition clean_column_names (r : ref) (h : store) : outcome (ref * store) :=
  match nth_error h r with
  | Some df => df' <- clean_columns df ;; Ok (r, update h r df')
  | None => Unmodelled
  end.

(** ** The pandas operations the extractor calls *)

Fixpoint index_of (c : string) (cols : list string) : nat :=
  match cols with
  | [] => 0
  | x :: cols' => if String.eqb x c then 0 else S (index_of c cols')
  end.

Definition occurrences (c : string) (cols : list string) : nat :=
  count_occ string_dec cols c.

Definition mem (c : string) (cols : list string) : bool :=
  existsb (String.eqb c) cols.

(** The cell of row [r] under the first column labelled [c]. *)
Definition get (cols : list string) (r : list value) (c : string) : value :=
  nth (index_of c cols) r VNaN.

(** [df[col][i]]. An absent label raises KeyError; a label that occurs twice
    selects a frame, whose lookup of the integer [i] raises KeyError too. *)
Definition cell (df : DataFrame) (col : string) (i : nat) : outcome value :=
  match occurrences col (columns df) with
  | 1 =>
      match nth_error (data df) i with
      | Some r => Ok (get (columns df) r col)
      | None => Raise KeyError
      end
  | _ => Raise KeyError
  end.

Fixpoint set_nth (n : nat) (v : value) (r : list value) : list value :=
  match r, n with
  | [], _ => []
  | _ :: r', O => v :: r'
  | x :: r', S n' => x :: set_nth n' v r'
  end.

(** Column [col] becomes [vals], one per row: in place when the label
    exists, as a new last column otherwise. *)
Definition assign_column (df : DataFrame) (col : string) (vals : list value)
  : DataFrame :=
  if mem col (columns df)
  then mkDF (columns df)
            (map (fun rv => set_nth (index_of col (columns df)) (snd rv) (fst rv))
                 (combine (data df) vals))
  else mkDF (columns df ++ [col])
            (map (fun rv => fst rv ++ [snd rv]) (combine (data df) vals)).

(** [df[col] = v]: a scalar is broadcast to every row, an array must have
    one element per row. *)
Definition setitem (df : DataFrame) (col : string) (v : value)
  : outcome DataFrame :=
  match occurrences col (columns df) with
  | 0 | 1 =>
      match v with
      | VList l =>
          if Nat.eqb (length l) (nrows df)
          then Ok (assign_column df col l)
          else Raise ValueError
      | VDict _ => Unmodelled
      | _ => Ok (assign_column df col (repeat v (nrows df)))
      end
  | _ => Unmodelled
  end.

Definition record : Type := list (string * value).

Fixpoint assoc (k : string) (d : record) : option value :=
  match d with
  | [] => None
  | (k', v) :: d' => if String.eqb k' k then Some v else assoc k d'
  end.

(** The value of key [c] in a mapping, NaN when the key is missing. *)
Definition field (c : string) (d : record) : value :=
  match assoc c d with
  | Some v => v
  | None => VNaN
  end.

(** The labels of [l] in order of first appearance. *)
Fixpoint dedup (l : list string) : list string :=
  match l with
  | [] => []
  | x :: l' => x :: filter (fun y => negb (String.eqb x y)) (dedup l')
  end.

Definition is_null (v : value) : bool :=
  match v with VNone | VNaN => true | _ => false end.

Definition is_nan (v : value) : bool :=
  match v with VNaN => true | _ => false end.

Definition is_int64 (v : value) : bool :=
  match v with
  | VInt z => Z.leb (- 2 ^ 63)%Z z && Z.ltb z (2 ^ 63)%Z
  | _ => false
  end.

Definition is_str (v : value) : bool :=
  match v with VStr _ => true | _ => false end.

(** The integer a float64 holds for [z]: [z] itself up to 2^53 in
    magnitude, beyond that the nearest multiple of the spacing of doubles,
    ties to the even significand (2^53 + 1 becomes 2^53). *)
Definition to_float64 (z : Z) : Z :=
  let a := Z.abs z in
  if Z.leb a (2 ^ 53)%Z then z
  else
    let e := (Z.log2 a - 52)%Z in
    let q := Z.shiftr a e in
    let r := (a - Z.shiftl q e)%Z in
    let half := Z.shiftl 1 (e - 1)%Z in
    let q' := if Z.ltb r half then q
              else if Z.ltb half r then (q + 1)%Z
              else if Z.even q then q else (q + 1)%Z in
    (Z.sgn z * Z.shiftl q' e)%Z.

(** How pandas stores a column built from the given entries, as far as it
    changes them: integers with a null among them become float64, strings
    with a null among them keep NaN as their null, and nulls alone are
    float64 as soon as one of them is NaN. Every other column keeps its
    entries; an integer outside the int64 range is taken to make the
    column a column of objects, which keeps its entries. *)
Inductive storage : Type :=
| AsFloat64
| AsString
| AsGiven.

Definition column_storage (vals : list value) : storage :=
  if existsb is_null vals
  then
    match filter (fun v => negb (is_null v)) vals with
    | [] => if existsb is_nan vals then AsFloat64 else AsGiven
    | rest =>
        if forallb is_int64 rest then AsFloat64
        else if forallb is_str rest then AsString
        else AsGiven
    end
  else AsGiven.

Definition stored (st : storage) (v : value) : value :=
  match st, v with
  | AsFloat64, VNone => VNaN
  | AsFloat64, VInt z => VInt (to_float64 z)
  | AsString, VNone => VNaN
  | _, _ => v
  end.

(** [pd.DataFrame(records)] for a list of mappings: the columns are the keys
    in order of first appearance, a key missing from an element gives NaN. *)
Definition frame_of_records (recs : list record) : DataFrame :=
  let cols := dedup (flat_map (map fst) recs) in
  mkDF cols
       (map (fun d =>
               map (fun c =>
                      stored (column_storage (map (field c) recs)) (field c d))
                   cols)
            recs).

Fixpoint records_of (l : list value) : option (list record) :=
  match l with
  | [] => Some []
  | VDict d :: l' =>
      match records_of l' with
      | Some ds => Some (d :: ds)
      | None => None
      end
  | _ :: _ => None
  end.

(** [pd.DataFrame(v)] *)
Definition DataFrame_of (v : value) : outcome DataFrame :=
  match v with
  | VNone => Ok empty_frame
  | VList l =>
      match records_of l with
      | Some recs => Ok (frame_of_records recs)
      | None => Unmodelled
      end
  | VDict _ => Unmodelled
  | _ => Raise ValueError
  end.

(** A row laid out under [src] re-laid under [target], NaN for the labels
    [src] lacks. *)
Definition reindex (target src : list string) (r : list value) : list value :=
  map (fun c => if mem c src then get src r c else VNaN) target.

Definition unique_labels (cols : list string) : bool :=
  forallb (fun c => Nat.eqb (occurrences c cols) 1) cols.

(** [pd.concat(frames, ignore_index=True)]: the labels in order of first
    appearance, the rows of the frames one after the other, NaN where a
    frame lacks a label. Entries are kept as they are given; where pandas
    stores a column of mixed kinds in one type, a boolean beside integers
    comes out as the integer equal to it. *)
Definition concat (frames : list DataFrame) : outcome DataFrame :=
  match frames with
  | [] => Raise ValueError
  | _ :: _ =>
      if forallb (fun f => unique_labels (columns f)) frames
      then
        let u := dedup (flat_map columns frames) in
        Ok (mkDF u (flat_map (fun f => map (reindex u (columns f)) (data f)) frames))
      else Unmodelled
  end.

(** [df.iloc[[i]][labels].copy()] *)
Definition select_row (df : DataFrame) (i : nat) (labels : list string)
  : outcome DataFrame :=
  if existsb (fun c => Nat.eqb (occurrences c (columns df)) 0) labels
  then Raise KeyError
  else if forallb (fun c => Nat.eqb (occurrences c (columns df)) 1) labels
  then
    match nth_error (data df) i with
    | Some r => Ok (mkDF labels [map (get (columns df) r) labels])
    | None => Raise IndexError
    end
  else Unmodelled.

(** [df[labels]] for a list of labels *)
Definition select_columns (df : DataFrame) (labels : list string)
  : outcome DataFrame :=
  if existsb (fun c => Nat.eqb (occurrences c (columns df)) 0) labels
  then Raise KeyError
  else if unique_labels (columns df)
  then Ok (mkDF labels (map (fun r => map (get (columns df) r) labels) (data df)))
  else Unmodelled.

(** [v > 0] *)
Definition gt_zero (v : value) : outcome bool :=
  match v with
  | VInt z => Ok (Z.ltb 0 z)
  | VBool b => Ok b
  | VNaN => Ok false
  | _ => Raise TypeError
  end.

(** ** extract_list_to_dataframe *)

(** [for col in cols_to_add: temp_df[col] = json_df[col][i]] *)
Fixpoint add_columns (json_df : DataFrame) (i : nat) (cols_to_add : list string)
  (temp_df : DataFrame) : outcome DataFrame :=
  match cols_to_add with
  | [] => Ok temp_df
  | col :: rest =>
      v <- cell json_df col i ;;
      temp_df' <- setitem temp_df col v ;;
      add_columns json_df i rest temp_df'
  end.

(** The loop over [range(len(json_df))]; the result is [all_rows]. *)
Fixpoint expand_rows (json_df : DataFrame) (column_name : string)
  (cols_to_add : list string) (rows : list nat) : outcome (list DataFrame) :=
  match rows with
  | [] => Ok []
  | i :: rows' =>
      item_list <- cell json_df column_name i ;;
      if truthy item_list
      then
        temp_df <- DataFrame_of item_list ;;
        temp_df' <- add_columns json_df i cols_to_add temp_df ;;
        all_rows <- expand_rows json_df column_name cols_to_add rows' ;;
        Ok (temp_df' :: all_rows)
      else expand_rows json_df column_name cols_to_add rows'
  end.

Definition extract_list_to_dataframe (json_df : DataFrame)
  (column_name : string) (cols_to_add : list string) : outcome DataFrame :=
  all_rows <- expand_rows json_df column_name cols_to_add (seq 0 (nrows json_df)) ;;
  match all_rows with
  | [] => Ok empty_frame
  | _ :: _ =>
      result_df <- concat all_rows ;;
      clean_columns result_df
  end.

(** ** extract_facilities_history *)

Definition cols_facilities : list string :=
  [ "username"; "nomor_identitas";
    "id_report"; "tgl_permintaan"; "npwp"; "email"; "telepon";
    "nomor_rekening_fasilitas"; "id_jenis_fasilitas";
    "id_pelapor"; "id_jenis_pelapor"; "id_jenis_kredit"; "id_sifat_kredit" ].

(** [list(riwayat[0].keys())] for a true [riwayat] *)
Definition first_keys (riwayat : value) : outcome (list string) :=
  match riwayat with
  | VList (VDict d :: _) => Ok (map fst d)
  | VList (_ :: _) => Raise AttributeError
  | VList [] => Raise IndexError
  | VStr _ => Raise AttributeError
  | VDict _ => Raise KeyError
  | _ => Raise TypeError
  end.

Fixpoint find_sample_keys (vals : list value) : outcome (option (list string)) :=
  match vals with
  | [] => Ok None
  | riwayat :: vals' =>
      if truthy riwayat
      then ks <- first_keys riwayat ;; Ok (Some ks)
      else find_sample_keys vals'
  end.

(** The loop [for riwayat in df_facilities['riwayat_fasilitas']]. With the
    label twice the selection is a frame, iterating it yields the labels,
    and a label has no [keys]. *)
Definition sample_keys (df_facilities : DataFrame)
  : outcome (option (list string)) :=
  match occurrences "riwayat_fasilitas" (columns df_facilities) with
  | 0 => Raise KeyError
  | 1 =>
      find_sample_keys
        (map (fun r => get (columns df_facilities) r "riwayat_fasilitas")
             (data df_facilities))
  | _ => Raise AttributeError
  end.

(** [[col for col in df_facilities.columns if col in sample_keys]]; [in None]
    raises as soon as there is a column to test. *)
Definition matching_cols (df_facilities : DataFrame)
  (keys : option (list string)) : outcome (list string) :=
  match keys with
  | Some ks => Ok (filter (fun col => mem col ks) (columns df_facilities))
  | None =>
      match columns df_facilities with
      | [] => Ok []
      | _ :: _ => Raise TypeError
      end
  end.

(** The [else] branch: one row synthesized from the facility itself. *)
Definition synthesize_row (df_facilities : DataFrame) (i : nat)
  (matching : list string) : outcome DataFrame :=
  temp_df <- select_row df_facilities i matching ;;
  temp_df1 <- setitem temp_df "snapshot_order" (VInt 1) ;;
  tunggakan <- cell df_facilities "tunggakan_pokok" i ;;
  arrears <- gt_zero tunggakan ;;
  temp_df2 <- setitem temp_df1 "status_tunggakan" (VInt (if arrears then 1 else 0)) ;;
  add_columns df_facilities i cols_facilities temp_df2.

Fixpoint history_rows (df_facilities : DataFrame) (matching : list string)
  (rows : list nat) : outcome (list DataFrame) :=
  match rows with
  | [] => Ok []
  | i :: rows' =>
      riwayat_list <- cell df_facilities "riwayat_fasilitas" i ;;
      temp_df <-
        (if truthy riwayat_list
         then
           temp_df <- DataFrame_of riwayat_list ;;
           add_columns df_facilities i cols_facilities temp_df
         else synthesize_row df_facilities i matching) ;;
      all_rows <- history_rows df_facilities matching rows' ;;
      Ok (temp_df :: all_rows)
  end.

Definition extract_facilities_history (df_facilities : DataFrame)
  : outcome DataFrame :=
  keys <- sample_keys df_facilities ;;
  matching <- matching_cols df_facilities keys ;;
  all_rows <- history_rows df_facilities matching (seq 0 (nrows df_facilities)) ;;
  result_df <- concat all_rows ;;
  clean_columns result_df.

(** ** extract_pefindo_data

    The function from the loaded, normalized report record on; reading the
    file and printing progress are left out. *)

Definition cols_basic : list string :=
  [ "report.header.username"; "report.debitur.nomor_identitas";
    "report.header.id_report"; "report.header.tgl_permintaan";
    "report.debitur.npwp"; "report.debitur.email"; "report.debitur.telepon" ].

Record tables : Type := mkTables {
  pefindo_scoring : DataFrame;
  pefindo_information_summary : DataFrame;
  pefindo_facilities : DataFrame;
  pefindo_facilities_history : DataFrame;
  pefindo_facilities_collateral : DataFrame;
  pefindo_facilities_guarantor : DataFrame;
  pefindo_inquiry : DataFrame;
  pefindo_inquiry_summary : DataFrame;
  pefindo_information_history : DataFrame;
  pefindo_collectibility_history : DataFrame
}.

Definition debitur_cols (json_df : DataFrame) : list string :=
  filter (contains "report.debitur") (columns json_df)
  ++ [ "report.header.username"; "report.header.id_report";
       "report.header.tgl_permintaan" ].

(** [clean_column_names(json_df[debitur_cols])]: the selection is a new
    table, so [json_df] keeps its labels. *)
Definition information_summary (json_df : DataFrame) : outcome DataFrame :=
  selected <- select_columns json_df (debitur_cols json_df) ;;
  clean_columns selected.

Definition extract_pefindo_data (json_df : DataFrame) : outcome tables :=
  scoring <- extract_list_to_dataframe json_df "scoring" cols_basic ;;
  summary <- information_summary json_df ;;
  facilities <- extract_list_to_dataframe json_df "report.fasilitas" cols_basic ;;
  history <- extract_facilities_history facilities ;;
  collateral <- extract_list_to_dataframe facilities "agunan" cols_facilities ;;
  guarantor <- extract_list_to_dataframe facilities "penjamin" cols_facilities ;;
  inquiry <- extract_list_to_dataframe json_df "report.permintaan_data" cols_basic ;;
  inquiry_summary <-
    extract_list_to_dataframe json_df "report.summary_permintaan_data" cols_basic ;;
  information_history <-
    extract_list_to_dataframe json_df "report.riwayat_identitas_debitur" cols_basic ;;
  collectibility_history <-
    extract_list_to_dataframe json_df "report.summary_riwayat_debitur" cols_basic ;;
  Ok (mkTables scoring summary facilities history collateral guarantor
        inquiry inquiry_summary information_history collectibility_history).

(** ** Vocabulary of the statements *)

(** Neither namespace string occurs anywhere in the label. *)
Definition namespace_free (c : string) : bool :=
  negb (contains "report.debitur." c) && negb (contains "report.header." c).

(** A carried value is a scalar: not an array, not a mapping. *)
Definition is_scalar (v : value) : bool :=
  match v with
  | VList _ | VDict _ => false
  | _ => true
  end.

(** The array cell of row [i], null when the lookup fails. *)
Definition array_cell (df : DataFrame) (col : string) (i : nat) : value :=
  match cell df col i with
  | Ok v => v
  | _ => VNone
  end.

Definition elements_of (v : value) : list value :=
  match v with
  | VList l => l
  | _ => []
  end.

(** The source row of every output row of an expansion: row [i] once per
    element of its array, rows in order. *)
Definition owners (df : DataFrame) (col : string) : list nat :=
  flat_map (fun i => repeat i (array_len (array_cell df col i)))
           (seq 0 (nrows df)).

(** The array elements behind the output rows, in the same order. *)
Definition all_elements (df : DataFrame) (col : string) : list value :=
  flat_map (fun i => elements_of (array_cell df col i)) (seq 0 (nrows df)).

(** The source facility of every row of the history table: one row per
    snapshot, one synthesized row for a facility without history. *)
Definition history_owners (df : DataFrame) : list nat :=
  flat_map (fun i =>
              let v := array_cell df "riwayat_fasilitas" i in
              repeat i (if truthy v then array_len v else 1))
           (seq 0 (nrows df)).

(** What an output row carries of row [i] of the parent, read off the
    cleaned labels [cols] of the output table. *)
Definition carries (df : DataFrame) (carry cols : list string) (i : nat)
  (row : list value) : Prop :=
  forall c, In c carry ->
    exists v, cell df c i = Ok v
      /\ (is_scalar v = true ->
          exists j, nth_error cols j = Some (clean_name c)
                    /\ nth_error row j = Some v).

(** Column [c] exists in [df] and holds [v] in every row. *)
Definition column_is (df : DataFrame) (c : string) (v : value) : Prop :=
  In c (columns df) /\ Forall (fun row => get (columns df) row c = v) (data df).

(** Row [row], laid out under [cols], has the label [c] and holds [v]
    under it. *)
Definition holds (cols : list string) (row : list value) (c : string)
  (v : value) : Prop :=
  In c cols /\ nth_error row (index_of c cols) = Some v.

(** The values every column keeps as they are, whatever the other entries
    of the column: booleans, strings, arrays, mappings, NaN, and integers
    up to 2^53 in magnitude. A null may become NaN and a larger integer may
    be rounded. *)
Definition kept_as_is (v : value) : bool :=
  match v with
  | VNone => false
  | VInt z => Z.leb (Z.abs z) (2 ^ 53)%Z
  | _ => true
  end.

(** What a row of a sub-table keeps of the mapping [e] it was built from. *)
Definition keeps_element (carry cols : list string) (e : value)
  (row : list value) : Prop :=
  exists d, e = VDict d /\
    forall k v, assoc k d = Some v -> ~ In k carry -> kept_as_is v = true ->
      holds cols row k v.

(** What a row of a sub-table carries of row [i] of the parent. *)
Definition carries_parent (df : DataFrame) (carry cols : list string) (i : nat)
  (row : list value) : Prop :=
  forall c, In c carry ->
    exists v, cell df c i = Ok v /\ (is_scalar v = true -> holds cols row c v).

(** The identifier columns, as labelled in the report record and in the
    child tables. *)
Definition identifier_columns : list string :=
  [ "username"; "nomor_identitas"; "id_report"; "tgl_permintaan";
    "npwp"; "email"; "telepon" ].

Definition child_tables (t : tables) : list DataFrame :=
  [ pefindo_scoring t; pefindo_facilities t; pefindo_facilities_history t;
    pefindo_facilities_collateral t; pefindo_facilities_guarantor t;
    pefindo_inquiry t; pefindo_inquiry_summary t;
    pefindo_information_history t; pefindo_collectibility_history t ].

(** An expansion of a parent table into child rows: by the List Expander
    over an array column, or by the reconciler over the facility table.
    The third index lists the source row of every output row. *)
Inductive expansion : DataFrame -> list string -> list nat -> DataFrame -> Prop :=
| by_list_expander (df : DataFrame) (col : string) (carry : list string)
    (out : DataFrame) :
    extract_list_to_dataframe df col carry = Ok out ->
    expansion df carry (owners df col) out
| by_reconciler (df out : DataFrame) :
    extract_facilities_history df = Ok out ->
    expansion df cols_facilities (history_owners df) out.

(** Every row of [child] holds, under each identifier column, the scalar
    the report record holds under the corresponding label. *)
Definition identifies (json_df child : DataFrame) : Prop :=
  forall row, In row (data child) ->
  forall c_report c_child,
    In (c_report, c_child) (combine cols_basic identifier_columns) ->
    exists v, cell json_df c_report 0 = Ok v
      /\ (is_scalar v = true ->
          exists j, nth_error (columns child) j = Some c_child
                    /\ nth_error row j = Some v).

(** ** Sample tables *)

(** A label as [json_normalize] would produce it for the nesting
    report > report > header > debitur > x. *)
Definition nested_label_table : DataFrame :=
  mkDF ["report.report.header.debitur.x"] [[VInt 1]].

Definition header_table : DataFrame :=
  mkDF ["report.header.username"; "report.debitur.npwp"; "scoring"]
       [[VStr "ops"; VStr "01.234"; VList []]].

(** Rows [r0; r1]: the array of [r0] has two elements, that of [r1] none. *)
Definition two_row_table : DataFrame :=
  mkDF ["items"; "fk"]
       [ [VList [VDict [("a", VInt 1)]; VDict [("a", VInt 2)]]; VStr "r0"];
         [VList []; VStr "r1"] ].

(** An element that has a key named like the carry column. *)
Definition own_key_table : DataFrame :=
  mkDF ["items"; "fk"]
       [ [VList [VDict [("fk", VStr "own"); ("a", VInt 1)]]; VStr "parent"] ].

(** Two facilities: the second lacks the key [agunan], so its cell is NaN. *)
Definition missing_array_table : DataFrame :=
  mkDF ["agunan"; "fk"] [ [VList []; VStr "f0"]; [VNaN; VStr "f1"] ].

Definition empty_arrays_table : DataFrame :=
  mkDF ["agunan"; "fk"] [ [VList []; VStr "f0"]; [VNone; VStr "f1"] ].

Definition facility (rekening : string) (tunggakan : Z)
  (riwayat agunan penjamin : list value) : value :=
  VDict [ ("nomor_rekening_fasilitas", VStr rekening);
          ("id_jenis_fasilitas", VStr "F01");
          ("id_pelapor", VStr "P1");
          ("id_jenis_pelapor", VStr "JP1");
          ("id_jenis_kredit", VStr "K1");
          ("id_sifat_kredit", VStr "S1");
          ("tunggakan_pokok", VInt tunggakan);
          ("riwayat_fasilitas", VList riwayat);
          ("agunan", VList agunan);
          ("penjamin", VList penjamin) ].

(** A report record as the loader produces it, with the tax id [npwp] and
    the facilities left open. *)
Definition report (npwp : value) (fasilitas : list value) : DataFrame :=
  mkDF [ "scoring";
         "report.header.username"; "report.header.id_report";
         "report.header.tgl_permintaan";
         "report.debitur.nomor_identitas"; "report.debitur.npwp";
         "report.debitur.email"; "report.debitur.telepon";
         "report.fasilitas"; "report.permintaan_data";
         "report.summary_permintaan_data";
         "report.riwayat_identitas_debitur";
         "report.summary_riwayat_debitur" ]
       [ [ VList [VDict [("score", VInt 700)]];
           VStr "ops"; VStr "R-1"; VStr "2024-01-31";
           VStr "3174"; npwp; VStr "a@b.id"; VStr "0812";
           VList fasilitas;
           VList [VDict [("tujuan", VStr "kredit")]];
           VList [];
           VList [VDict [("alamat", VStr "Jl. A")]];
           VList [] ] ].

Definition sample_facilities : list value :=
  [ facility "ACC-1" 0
      [VDict [("snapshot_order", VInt 1); ("status_tunggakan", VInt 0)]]
      [VDict [("jenis", VStr "tanah")]; VDict [("jenis", VStr "mobil")]]
      [];
    facility "ACC-2" 1500 [] [] [VDict [("nama", VStr "Budi")]] ].

Definition sample_report : DataFrame := report (VStr "01.234") sample_facilities.

(** The same report with a null tax id. *)
Definition null_npwp_report : DataFrame := report VNone sample_facilities.

(** A facility table with one facility, without history, arrears 1500. *)
Definition lone_facility_table : DataFrame :=
  mkDF ([ "riwayat_fasilitas"; "tunggakan_pokok" ] ++ cols_facilities)
       [ [ VList []; VInt 1500;
           VStr "ops"; VStr "3174"; VStr "R-1"; VStr "2024-01-31";
           VStr "01.234"; VStr "a@b.id"; VStr "0812";
           VStr "ACC-2"; VStr "F01"; VStr "P1"; VStr "JP1"; VStr "K1";
           VStr "S1" ] ].

(** The tables extracted from the sample reports. *)
Definition tables_of (json_df : DataFrame) : tables :=
  match extract_pefindo_data json_df with
  | Ok t => t
  | _ => mkTables empty_frame empty_frame empty_frame empty_frame empty_frame
           empty_frame empty_frame empty_frame empty_frame empty_frame
  end.

Definition sample_tables : tables := Eval vm_compute in tables_of sample_report.

(** A table without the array column. *)
Definition no_array_table : DataFrame := mkDF ["fk"] [[VStr "f0"]].

(** Two facilities without history, arrears 1500 and 0, after one with a
    snapshot. *)
Definition arrears_table : DataFrame :=
  mkDF ([ "riwayat_fasilitas"; "tunggakan_pokok" ] ++ cols_facilities)
       (map (fun f : value * Z * string =>
               [ fst (fst f); VInt (snd (fst f));
                 VStr "ops"; VStr "3174"; VStr "R-1"; VStr "2024-01-31";
                 VStr "01.234"; VStr "a@b.id"; VStr "0812";
                 VStr (snd f); VStr "F01"; VStr "P1"; VStr "JP1"; VStr "K1";
                 VStr "S1" ])
            [ (VList [VDict [("snapshot_order", VInt 3)]], 0%Z, "ACC-1");
              (VList [], 1500%Z, "ACC-2");
              (VList [], 0%Z, "ACC-3") ]).

(** ** load_json_data, from the parsed document on

    [pd.json_normalize(data)] for a mapping: the values of the top level
    that are not mappings keep their keys, the mappings are flattened to
    dotted paths, arrays stay as they are, and the one resulting mapping
    becomes a one-row table. Reading and parsing the file are left out. *)

(** The key under which [_normalise_json] files the entry [key] of the
    mapping reached by [key_string]. *)
Definition new_key (key_string key : string) : string :=
  if String.eqb key_string "" then key else key_string ++ "." ++ key.

(** The assignments [normalized_dict[new_key] = data], in the order the
    recursion makes them. *)
Fixpoint normalise_json (key_string : string) (data : value)
  : list (string * value) :=
  match data with
  | VDict d =>
      (fix items (d : list (string * value)) : list (string * value) :=
         match d with
         | [] => []
         | (key, v) :: d' =>
             normalise_json (new_key key_string key) v ++ items d'
         end) d
  | _ => [(key_string, data)]
  end.

(** [d[k] = v] on a Python dict: an existing key keeps its place. *)
Fixpoint dict_set (k : string) (v : value) (d : record) : record :=
  match d with
  | [] => [(k, v)]
  | (k', v') :: d' =>
      if String.eqb k' k then (k, v) :: d' else (k', v') :: dict_set k v d'
  end.

Definition dict_update (d : record) (items : list (string * value)) : record :=
  fold_left (fun acc kv => dict_set (fst kv) (snd kv) acc) items d.

Definition is_dict (v : value) : bool :=
  match v with VDict _ => true | _ => false end.

(** [{**top_dict_, **nested_dict_}] *)
Definition normalise_json_ordered (d : record) : record :=
  let top := filter (fun kv => negb (is_dict (snd kv))) d in
  let nested := normalise_json "" (VDict (filter (fun kv => is_dict (snd kv)) d)) in
  dict_update (dict_update [] top) nested.

(** [pd.json_normalize(data)]; only a mapping and the empty array are
    described. *)
Definition json_normalize (data : value) : outcome DataFrame :=
  match data with
  | VDict d => Ok (frame_of_records [normalise_json_ordered d])
  | VList [] => Ok empty_frame
  | _ => Unmodelled
  end.

(** The value found by following the keys of [path] from [v]. *)
Fixpoint lookup_path (path : list string) (v : value) : option value :=
  match path with
  | [] => Some v
  | k :: path' =>
      match v with
      | VDict d =>
          match assoc k d with
          | Some x => lookup_path path' x
          | None => None
          end
      | _ => None
      end
  end.

(** The dotted label of a path. *)
Definition label_of (path : list string) : string :=
  fold_left new_key path "".

(** The keys the flattening assigns, top level first. *)
Definition flat_keys (d : record) : list string :=
  map fst (filter (fun kv => negb (is_dict (snd kv))) d
           ++ normalise_json "" (VDict (filter (fun kv => is_dict (snd kv)) d))).

(** ** The information summary in the store

    [json_df[debitur_cols]] allocates a new table; [clean_column_names]
    renames that one. *)
Definition alloc (h : store) (df : DataFrame) : ref * store :=
  (length h, h ++ [df]).

Definition information_summary_in_store (json_df : ref) (h : store)
  : outcome (ref * store) :=
  match nth_error h json_df with
  | Some df =>
      selected <- select_columns df (debitur_cols df) ;;
      clean_column_names (fst (alloc h selected)) (snd (alloc h selected))
  | None => Unmodelled
  end.

(** ** Further vocabulary *)

(** An output row of the history table that was synthesized for a facility
    without history: snapshot order 1 and the status given by the sign of
    the facility's arrears. *)
Definition synthesized (df : DataFrame) (cols : list string) (i : nat)
  (row : list value) : Prop :=
  truthy (array_cell df "riwayat_fasilitas" i) = false ->
  exists tunggakan arrears,
    cell df "tunggakan_pokok" i = Ok tunggakan
    /\ gt_zero tunggakan = Ok arrears
    /\ holds cols row "snapshot_order" (VInt 1)
    /\ holds cols row "status_tunggakan" (VInt (if arrears then 1 else 0)).

(** A row holds NaN under every label that its element lacks and that is
    not a carry label. *)
Definition fills_missing (carry cols : list string) (e : value)
  (row : list value) : Prop :=
  exists d, e = VDict d /\
    forall k, assoc k d = None -> ~ In k carry -> In k cols ->
      nth_error row (index_of k cols) = Some VNaN.

(** The rows a source row contributes to the history table. *)
Definition history_count (df : DataFrame) (i : nat) : nat :=
  let v := array_cell df "riwayat_fasilitas" i in
  if truthy v then array_len v else 1.

(** The history table of the sample facility table. *)
Definition history_of (df : DataFrame) : DataFrame :=
  match extract_facilities_history df with
  | Ok out => out
  | _ => empty_frame
  end.

Definition arrears_history : DataFrame :=
  Eval vm_compute in history_of arrears_table.

(** Elements with different keys. *)
Definition ragged_table : DataFrame :=
  mkDF ["items"; "fk"]
       [ [VList [VDict [("a", VInt 1)]; VDict [("b", VStr "x")]]; VStr "r0"];
         [VList [VDict [("c", VNone)]]; VStr "r1"] ].

Definition expansion_of (df : DataFrame) (col : string) (carry : list string)
  : DataFrame :=
  match extract_list_to_dataframe df col carry with
  | Ok out => out
  | _ => empty_frame
  end.

Definition ragged_expansion : DataFrame :=
  Eval vm_compute in expansion_of ragged_table "items" ["fk"].

(** A parsed document. *)
Definition sample_document : record :=
  [ ("scoring", VList [VDict [("score", VInt 700)]]);
    ("report",
      VDict [ ("header", VDict [ ("username", VStr "ops");
                                 ("id_report", VStr "R-1");
                                 ("tgl_permintaan", VStr "2024-01-31") ]);
              ("debitur", VDict [ ("nomor_identitas", VStr "3174");
                                  ("npwp", VNone);
                                  ("email", VStr "a@b.id");
                                  ("telepon", VStr "0812") ]);
              ("fasilitas", VList sample_facilities);
              ("permintaan_data", VList []) ]) ].

(** ** Further sample tables *)


(** [r0] has two elements, the array cell of [r1] is null. *)
Definition null_row_table : DataFrame :=
  mkDF ["items"; "fk"]
       [ [VList [VDict [("a", VInt 1)]; VDict [("a", VInt 2)]]; VStr "r0"];
         [VNone; VStr "r1"] ].


(** A report record with the scoring array, the e-mail cell, the identity
    history and the facilities left open. *)
Definition report_of (scoring : list value) (email : value)
  (identitas fasilitas : list value) : DataFrame :=
  mkDF [ "scoring";
         "report.header.username"; "report.header.id_report";
         "report.header.tgl_permintaan";
         "report.debitur.nomor_identitas"; "report.debitur.npwp";
         "report.debitur.email"; "report.debitur.telepon";
         "report.fasilitas"; "report.permintaan_data";
         "report.summary_permintaan_data";
         "report.riwayat_identitas_debitur";
         "report.summary_riwayat_debitur" ]
       [ [ VList scoring;
           VStr "ops"; VStr "R-1"; VStr "2024-01-31";
           VStr "3174"; VStr "01.234"; email; VStr "0812";
           VList fasilitas;
           VList [];
           VList [];
           VList identitas;
           VList [] ] ].

(** An identity-history element with an identity number of its own. *)
Definition colliding_report : DataFrame :=
  report_of [VDict [("score", VInt 700)]] (VStr "a@b.id")
    [VDict [("nomor_identitas", VStr "OLD-999"); ("alamat", VStr "Jl. A")]]
    sample_facilities.

(** Two e-mail addresses, given as an array. *)
Definition array_email_report : DataFrame :=
  report_of [VDict [("score", VInt 700)]; VDict [("score", VInt 710)]]
    (VList [VStr "a@b.id"; VStr "c@d.id"]) [] sample_facilities.

(** A facility whose snapshot has a reporter id of its own, and a facility
    without history. *)
Definition own_key_facility_table : DataFrame :=
  mkDF ([ "riwayat_fasilitas"; "tunggakan_pokok" ] ++ cols_facilities)
       (map (fun f : value * Z * string =>
               [ fst (fst f); VInt (snd (fst f));
                 VStr "ops"; VStr "3174"; VStr "R-1"; VStr "2024-01-31";
                 VStr "01.234"; VStr "a@b.id"; VStr "0812";
                 VStr (snd f); VStr "F01"; VStr "P1"; VStr "JP1"; VStr "K1";
                 VStr "S1" ])
            [ (VList [VDict [("id_pelapor", VStr "own"); ("bulan", VStr "2024-01")]],
               0%Z, "ACC-1");
              (VList [], 1500%Z, "ACC-2") ]).

(** Its history table: the snapshot of the first facility, then the row
    synthesized for the second. *)
Definition own_key_history : DataFrame :=
  mkDF [ "id_pelapor"; "bulan"; "username"; "nomor_identitas"; "id_report";
         "tgl_permintaan"; "npwp"; "email"; "telepon";
         "nomor_rekening_fasilitas"; "id_jenis_fasilitas"; "id_jenis_pelapor";
         "id_jenis_kredit"; "id_sifat_kredit"; "snapshot_order";
         "status_tunggakan" ]
       [ [ VStr "P1"; VStr "2024-01"; VStr "ops"; VStr "3174"; VStr "R-1";
           VStr "2024-01-31"; VStr "01.234"; VStr "a@b.id"; VStr "0812";
           VStr "ACC-1"; VStr "F01"; VStr "JP1"; VStr "K1"; VStr "S1";
           VNaN; VNaN ];
         [ VStr "P1"; VNaN; VStr "ops"; VStr "3174"; VStr "R-1";
           VStr "2024-01-31"; VStr "01.234"; VStr "a@b.id"; VStr "0812";
           VStr "ACC-2"; VStr "F01"; VStr "JP1"; VStr "K1"; VStr "S1";
           VInt 1; VInt 1 ] ].





(** * Properties *)

(** ** Outcomes *)

Lemma bind_ok {A B : Type} (m : outcome A) (k : A -> outcome B) (b : B) :
  bind m k = Ok b -> exists a, m = Ok a /\ k a = Ok b.
Proof.
  destruct m as [a| |]; simpl; intros H; try discriminate.
  exists a; split; [reflexivity | exact H].
Qed.

Ltac split_all := repeat match goal with |- _ /\ _ => split end.

Ltac inv_bind H :=
  let a := fresh "a" in
  let E := fresh "E" in
  apply bind_ok in H; destruct H as [a [E H]].

(** ** Strings *)

Lemma replace_from_absent (old new s : string) :
  contains old s = false -> replace_from old new 0 s = s.
Proof.
  induction s as [|c s IH]; intros H.
  - reflexivity.
  - cbn [contains] in H. apply orb_false_iff in H. destruct H as [H1 H2].
    cbn [replace_from]. rewrite H1. f_equal. apply IH, H2.
Qed.

Lemma clean_name_fixed (c : string) :
  namespace_free c = true -> clean_name c = c.
Proof.
  unfold namespace_free, clean_name, str_replace. intros H.
  apply andb_true_iff in H. destruct H as [H1 H2].
  apply negb_true_iff in H1. apply negb_true_iff in H2.
  rewrite (replace_from_absent _ _ _ H1). apply replace_from_absent, H2.
Qed.

Lemma map_clean_name_fixed (cols : list string) :
  forallb namespace_free cols = true -> map clean_name cols = cols.
Proof.
  induction cols as [|c cols IH]; simpl; intros H.
  - reflexivity.
  - apply andb_true_iff in H. destruct H as [H1 H2].
    rewrite (clean_name_fixed _ H1), (IH H2). reflexivity.
Qed.

Lemma clean_name_after_namespace (s : string) :
  namespace_free s = true ->
  clean_name ("report.header." ++ s) = s
  /\ clean_name ("report.debitur." ++ s) = s.
Proof.
  intros H. rewrite <- (clean_name_fixed s H) at 2 4.
  unfold clean_name, str_replace. split; simpl; reflexivity.
Qed.

(** ** The store *)

Lemma nth_error_update_same (h : store) (r : ref) (df df' : DataFrame) :
  nth_error h r = Some df -> nth_error (update h r df') r = Some df'.
Proof.
  revert r. induction h as [|d h IH]; intros [|r] H; simpl in *;
    try discriminate; auto.
Qed.

Lemma nth_error_update_other (h : store) (r r' : ref) (df' : DataFrame) :
  r' <> r -> nth_error (update h r df') r' = nth_error h r'.
Proof.
  revert r r'. induction h as [|d h IH]; intros [|r] [|r'] H; simpl;
    try reflexivity; try congruence.
  apply IH. congruence.
Qed.

(** ** clean_column_names *)

Lemma clean_columns_ok (df out : DataFrame) :
  clean_columns df = Ok out ->
  columns df <> [] /\ out = mkDF (map clean_name (columns df)) (data df).
Proof.
  unfold clean_columns. destruct (columns df) as [|c cols] eqn:E;
    [destruct (data df); discriminate|].
  intros H. injection H as <-. split; [discriminate | reflexivity].
Qed.

Lemma clean_columns_labelled (df : DataFrame) :
  columns df <> [] ->
  clean_columns df = Ok (mkDF (map clean_name (columns df)) (data df)).
Proof.
  unfold clean_columns. destruct (columns df); [congruence | reflexivity].
Qed.

(** A table with labels none of which contains a namespace string is
    returned as it is, also a second time. *)
Lemma clean_columns_noop_without_namespaces (t : DataFrame) :
  columns t <> [] ->
  forallb namespace_free (columns t) = true ->
  clean_columns t = Ok t.
Proof.
  intros Hne H. rewrite (clean_columns_labelled _ Hne).
  rewrite (map_clean_name_fixed _ H). destruct t; reflexivity.
Qed.

(** C8 at the label "report.report.header.debitur.x": the normalizer
    removes "report.header." from the middle of the label, which is no
    prefix, and leaves "report.debitur.x"; normalizing that table again
    gives "x", so the second application is no no-op. A label without
    either prefix, "a.report.header.b", is changed as well. *)
Lemma normalizer_removes_inner_namespaces :
  clean_column_names 0 [nested_label_table]
  = Ok (0, [mkDF ["report.debitur.x"] [[VInt 1]]])
  /\ clean_column_names 0 [mkDF ["report.debitur.x"] [[VInt 1]]]
     = Ok (0, [mkDF ["x"] [[VInt 1]]])
  /\ clean_columns nested_label_table = Ok (mkDF ["report.debitur.x"] [[VInt 1]])
  /\ clean_columns (mkDF ["report.debitur.x"] [[VInt 1]])
     = Ok (mkDF ["x"] [[VInt 1]])
  /\ starts_with "report.header." "a.report.header.b" = false
  /\ starts_with "report.debitur." "a.report.header.b" = false
  /\ clean_name "a.report.header.b" = "a.b".
Proof. repeat split. Qed.

(** C10, as the code has it: on a table with at least one column the
    normalizer returns the reference it was given; the table stored there
    afterwards has the rows and cells of the input and as many columns;
    each label is the cleaned label of the same position: a label made of
    "report.header." or "report.debitur." and a rest without namespace
    strings becomes that rest, a label without namespace strings stays;
    and no other table of the store changes. *)
Theorem clean_column_names_renames_in_place (r : ref) (h : store) (df : DataFrame) :
  nth_error h r = Some df ->
  columns df <> [] ->
  exists h' df',
    clean_column_names r h = Ok (r, h')
    /\ nth_error h' r = Some df'
    /\ data df' = data df
    /\ nrows df' = nrows df
    /\ length (columns df') = length (columns df)
    /\ (forall j c, nth_error (columns df) j = Some c ->
          nth_error (columns df') j = Some (clean_name c))
    /\ (forall j s, namespace_free s = true ->
          (nth_error (columns df) j = Some ("report.header." ++ s)%string
           \/ nth_error (columns df) j = Some ("report.debitur." ++ s)%string
           \/ nth_error (columns df) j = Some s) ->
          nth_error (columns df') j = Some s)
    /\ forall r', r' <> r -> nth_error h' r' = nth_error h r'.
Proof.
  intros H Hne.
  exists (update h r (mkDF (map clean_name (columns df)) (data df))),
         (mkDF (map clean_name (columns df)) (data df)).
  unfold clean_column_names. rewrite H, (clean_columns_labelled _ Hne).
  cbn [bind columns data]. split_all.
  - reflexivity.
  - apply (nth_error_update_same _ _ df), H.
  - reflexivity.
  - reflexivity.
  - apply length_map.
  - intros j c Hj. rewrite nth_error_map, Hj. reflexivity.
  - intros j s Hs Hj. rewrite nth_error_map.
    destruct (clean_name_after_namespace s Hs) as [P1 P2].
    destruct Hj as [Hj|[Hj|Hj]]; rewrite Hj; cbn [option_map]; f_equal.
    + exact P1.
    + exact P2.
    + apply clean_name_fixed, Hs.
  - intros r' Hr. apply nth_error_update_other, Hr.
Qed.

Lemma clean_column_names_renames_in_place_witness :
  exists h' df',
    clean_column_names 1 [nested_label_table; header_table] = Ok (1, h')
    /\ nth_error h' 1 = Some df'
    /\ data df' = data header_table
    /\ nrows df' = nrows header_table
    /\ length (columns df') = length (columns header_table)
    /\ (forall j c, nth_error (columns header_table) j = Some c ->
          nth_error (columns df') j = Some (clean_name c))
    /\ (forall j s, namespace_free s = true ->
          (nth_error (columns header_table) j = Some ("report.header." ++ s)%string
           \/ nth_error (columns header_table) j = Some ("report.debitur." ++ s)%string
           \/ nth_error (columns header_table) j = Some s) ->
          nth_error (columns df') j = Some s)
    /\ forall r', r' <> 1 ->
         nth_error h' r' = nth_error [nested_label_table; header_table] r'.
Proof.
  apply (clean_column_names_renames_in_place 1 [nested_label_table; header_table]).
  - reflexivity.
  - discriminate.
Defined.

(** The renamed table of the sample store, label by label. *)
Example header_table_renamed :
  clean_column_names 1 [nested_label_table; header_table]
  = Ok (1, [ nested_label_table;
             mkDF ["username"; "npwp"; "scoring"]
                  [[VStr "ops"; VStr "01.234"; VList []]] ]).
Proof. reflexivity. Qed.

(** C10 as stated fails: on the table without columns, [pd.DataFrame()],
    the normalizer raises AttributeError; no table is returned and none is
    renamed. *)
Lemma normalizer_raises_without_labels :
  clean_column_names 0 [empty_frame] = Raise AttributeError
  /\ clean_columns empty_frame = Raise AttributeError.
Proof. split; reflexivity. Qed.

(** ** Labels and positions *)

Lemma mem_In (c : string) (cols : list string) : mem c cols = true <-> In c cols.
Proof.
  unfold mem. rewrite existsb_exists. split.
  - intros [x [Hx E]]. apply String.eqb_eq in E. subst. exact Hx.
  - intros H. exists c. split; [exact H | apply String.eqb_refl].
Qed.

Lemma mem_not_In (c : string) (cols : list string) :
  mem c cols = false <-> ~ In c cols.
Proof.
  rewrite <- mem_In. destruct (mem c cols); split; intros H; congruence.
Qed.

Lemma occurrences_In (c : string) (cols : list string) :
  occurrences c cols = 1 -> In c cols.
Proof.
  unfold occurrences. intros H. apply (count_occ_In string_dec). lia.
Qed.

Lemma occurrences_absent (c : string) (cols : list string) :
  occurrences c cols = 0 <-> ~ In c cols.
Proof.
  unfold occurrences. symmetry. apply count_occ_not_In.
Qed.

Lemma index_of_nth_error (c : string) (cols : list string) :
  In c cols -> nth_error cols (index_of c cols) = Some c.
Proof.
  induction cols as [|x cols IH]; simpl; intros H; [contradiction|].
  destruct (String.eqb x c) eqn:E.
  - apply String.eqb_eq in E. subst. reflexivity.
  - simpl. apply IH. destruct H as [H|H]; [|exact H].
    subst. rewrite String.eqb_refl in E. discriminate.
Qed.

Lemma index_of_lt (c : string) (cols : list string) :
  In c cols -> index_of c cols < length cols.
Proof.
  intros H. apply nth_error_Some. rewrite (index_of_nth_error _ _ H). discriminate.
Qed.

Lemma index_of_app_l (c : string) (cols l : list string) :
  In c cols -> index_of c (cols ++ l) = index_of c cols.
Proof.
  induction cols as [|x cols IH]; simpl; intros H; [contradiction|].
  destruct (String.eqb x c) eqn:E; [reflexivity|].
  f_equal. apply IH. destruct H as [H|H]; [|exact H].
  subst. rewrite String.eqb_refl in E. discriminate.
Qed.

Lemma index_of_app_r (c : string) (cols : list string) :
  ~ In c cols -> index_of c (cols ++ [c]) = length cols.
Proof.
  induction cols as [|x cols IH]; simpl; intros H.
  - rewrite String.eqb_refl. reflexivity.
  - destruct (String.eqb x c) eqn:E.
    + apply String.eqb_eq in E. subst. exfalso. apply H. left. reflexivity.
    + f_equal. apply IH. intros Hin. apply H. right. exact Hin.
Qed.

Lemma index_of_inj (c c' : string) (cols : list string) :
  In c cols -> In c' cols -> index_of c cols = index_of c' cols -> c = c'.
Proof.
  intros H H' E. apply index_of_nth_error in H, H'. rewrite E in H. congruence.
Qed.

Lemma set_nth_length (n : nat) (v : value) (r : list value) :
  length (set_nth n v r) = length r.
Proof.
  revert n. induction r as [|x r IH]; intros [|n]; simpl; auto.
Qed.

Lemma nth_set_nth_same (n : nat) (v d : value) (r : list value) :
  n < length r -> nth n (set_nth n v r) d = v.
Proof.
  revert n. induction r as [|x r IH]; intros [|n] H; simpl in *; try lia; auto.
  apply IH. lia.
Qed.

Lemma nth_set_nth_other (n m : nat) (v d : value) (r : list value) :
  m <> n -> nth m (set_nth n v r) d = nth m r d.
Proof.
  revert n m. induction r as [|x r IH]; intros [|n] [|m] H; simpl;
    try reflexivity; try congruence.
  apply IH. congruence.
Qed.

Lemma get_inplace_same (cols : list string) (col : string) (v : value)
  (row : list value) :
  In col cols -> length row = length cols ->
  get cols (set_nth (index_of col cols) v row) col = v.
Proof.
  intros H L. unfold get. apply nth_set_nth_same. rewrite L. apply index_of_lt, H.
Qed.

Lemma get_inplace_other (cols : list string) (col c : string) (v : value)
  (row : list value) :
  c <> col -> In c cols -> In col cols ->
  get cols (set_nth (index_of col cols) v row) c = get cols row c.
Proof.
  intros N H H'. unfold get. apply nth_set_nth_other.
  intros E. apply N. eapply index_of_inj; eauto.
Qed.

Lemma get_append_same (cols : list string) (col : string) (v : value)
  (row : list value) :
  ~ In col cols -> length row = length cols ->
  get (cols ++ [col]) (row ++ [v]) col = v.
Proof.
  intros H L. unfold get. rewrite index_of_app_r by assumption.
  rewrite app_nth2 by lia. rewrite L, Nat.sub_diag. reflexivity.
Qed.

Lemma get_append_other (cols : list string) (col c : string) (v : value)
  (row : list value) :
  In c cols -> length row = length cols ->
  get (cols ++ [col]) (row ++ [v]) c = get cols row c.
Proof.
  intros H L. unfold get. rewrite index_of_app_l by assumption.
  apply app_nth1. rewrite L. apply index_of_lt, H.
Qed.

(** ** Lists built with [combine] *)

Lemma Forall_map_combine {A B C : Type} (Q : A -> Prop) (P : C -> Prop)
  (f : A * B -> C) (l1 : list A) (l2 : list B) :
  Forall Q l1 -> (forall a b, Q a -> P (f (a, b))) ->
  Forall P (map f (combine l1 l2)).
Proof.
  revert l2. induction l1 as [|a l1 IH]; intros [|b l2] HQ HP; simpl;
    try constructor.
  - apply HP. inversion HQ; assumption.
  - apply IH; [inversion HQ; assumption | exact HP].
Qed.

Lemma Forall2_map_combine_l {A B C : Type} (Q : A -> Prop) (P : A -> C -> Prop)
  (f : A * B -> C) (l1 : list A) (l2 : list B) :
  length l2 = length l1 -> Forall Q l1 ->
  (forall a b, Q a -> P a (f (a, b))) ->
  Forall2 P l1 (map f (combine l1 l2)).
Proof.
  revert l2. induction l1 as [|a l1 IH]; intros [|b l2] L HQ HP; simpl in *;
    try discriminate; constructor.
  - apply HP. inversion HQ; assumption.
  - apply IH; [lia | inversion HQ; assumption | exact HP].
Qed.

Lemma Forall2_map_combine_r {A B C : Type} (Q : A -> Prop) (P : B -> C -> Prop)
  (f : A * B -> C) (l1 : list A) (l2 : list B) :
  length l2 = length l1 -> Forall Q l1 ->
  (forall a b, Q a -> P b (f (a, b))) ->
  Forall2 P l2 (map f (combine l1 l2)).
Proof.
  revert l2. induction l1 as [|a l1 IH]; intros [|b l2] L HQ HP; simpl in *;
    try discriminate; constructor.
  - apply HP. inversion HQ; assumption.
  - apply IH; [lia | inversion HQ; assumption | exact HP].
Qed.

(** ** Assigning a column *)

Lemma assign_column_spec (df : DataFrame) (col : string) (vals : list value) :
  well_formed df -> length vals = nrows df ->
  well_formed (assign_column df col vals)
  /\ nrows (assign_column df col vals) = nrows df
  /\ In col (columns (assign_column df col vals))
  /\ (forall c, In c (columns df) -> In c (columns (assign_column df col vals)))
  /\ (forall c, In c (columns (assign_column df col vals)) ->
        c = col \/ In c (columns df))
  /\ Forall2 (fun v row' => get (columns (assign_column df col vals)) row' col = v)
       vals (data (assign_column df col vals))
  /\ Forall2 (fun row row' => forall c, c <> col -> In c (columns df) ->
                get (columns (assign_column df col vals)) row' c
                = get (columns df) row c)
       (data df) (data (assign_column df col vals)).
Proof.
  intros W L. unfold assign_column, well_formed, nrows in *.
  destruct (mem col (columns df)) eqn:M; cbn [columns data].
  - apply mem_In in M. repeat split.
    + eapply Forall_map_combine; [exact W|]. intros a b Ha. cbn.
      rewrite set_nth_length. exact Ha.
    + rewrite length_map, length_combine. lia.
    + exact M.
    + auto.
    + auto.
    + eapply Forall2_map_combine_r; [exact L | exact W |].
      intros a b Ha. cbn. apply get_inplace_same; assumption.
    + eapply Forall2_map_combine_l; [exact L | exact W |].
      intros a b Ha c Hc Hin. cbn. apply get_inplace_other; assumption.
  - apply mem_not_In in M. repeat split.
    + eapply Forall_map_combine; [exact W|]. intros a b Ha. cbn.
      cbn beta in Ha. rewrite !length_app. cbn. lia.
    + rewrite length_map, length_combine. lia.
    + apply in_or_app. right. left. reflexivity.
    + intros c Hc. apply in_or_app. left. exact Hc.
    + intros c Hc. apply in_app_or in Hc. destruct Hc as [Hc|[Hc|[]]]; auto.
    + eapply Forall2_map_combine_r; [exact L | exact W |].
      intros a b Ha. cbn. apply get_append_same; assumption.
    + eapply Forall2_map_combine_l; [exact L | exact W |].
      intros a b Ha c Hc Hin. cbn. apply get_append_other; assumption.
Qed.

Lemma Forall2_repeat_l {A B : Type} (P : A -> B -> Prop) (a : A) (n : nat)
  (l : list B) :
  Forall2 P (repeat a n) l -> Forall (P a) l.
Proof.
  revert l. induction n as [|n IH]; intros l H; simpl in H; inversion H; subst;
    constructor; auto.
Qed.

Lemma Forall2_transfer {A B : Type} (R : A -> B -> Prop) (P : A -> Prop)
  (P' : B -> Prop) (l : list A) (l' : list B) :
  Forall2 R l l' -> Forall P l -> (forall a b, R a b -> P a -> P' b) ->
  Forall P' l'.
Proof.
  intros H. induction H as [|a b l l' Hab H IH]; intros HP HR; constructor.
  - eapply HR; [exact Hab | inversion HP; assumption].
  - apply IH; [inversion HP; assumption | exact HR].
Qed.

Lemma Forall2_compose {A B C : Type} (R1 : A -> B -> Prop) (R2 : B -> C -> Prop)
  (R : A -> C -> Prop) (l1 : list A) (l2 : list B) (l3 : list C) :
  Forall2 R1 l1 l2 -> Forall2 R2 l2 l3 ->
  (forall a b c, R1 a b -> R2 b c -> R a c) ->
  Forall2 R l1 l3.
Proof.
  intros H. revert l3. induction H as [|a b l1 l2 Hab H IH]; intros l3 H2 HR;
    inversion H2; subst; constructor.
  - eapply HR; eauto.
  - apply IH; assumption.
Qed.

Lemma Forall2_same {A : Type} (R : A -> A -> Prop) (l : list A) :
  (forall a, R a a) -> Forall2 R l l.
Proof.
  intros H. induction l; constructor; auto.
Qed.

Lemma setitem_ok (df : DataFrame) (col : string) (v : value) (df' : DataFrame) :
  setitem df col v = Ok df' ->
  exists vals,
    df' = assign_column df col vals
    /\ length vals = nrows df
    /\ (is_scalar v = true -> vals = repeat v (nrows df)).
Proof.
  unfold setitem. intros H.
  assert (G : match v with
              | VList l =>
                  if Nat.eqb (length l) (nrows df)
                  then Ok (assign_column df col l)
                  else Raise ValueError
              | VDict _ => Unmodelled
              | _ => Ok (assign_column df col (repeat v (nrows df)))
              end = Ok df').
  { destruct (occurrences col (columns df)) as [|[|n]];
      [exact H | exact H | discriminate]. }
  clear H. destruct v; try discriminate;
    try (injection G as <-; eexists; split;
         [reflexivity | split; [apply repeat_length | reflexivity]]).
  destruct (Nat.eqb (length l) (nrows df)) eqn:E; [|discriminate].
  injection G as <-. exists l. split; [reflexivity|].
  split; [apply Nat.eqb_eq, E | discriminate].
Qed.

Lemma setitem_column_is (df : DataFrame) (col : string) (v : value)
  (df' : DataFrame) :
  setitem df col v = Ok df' -> well_formed df -> is_scalar v = true ->
  column_is df' col v.
Proof.
  intros H W S. apply setitem_ok in H. destruct H as [vals [-> [L Hs]]].
  specialize (Hs S). subst vals.
  destruct (assign_column_spec df col _ W L) as [_ [_ [Hin [_ [_ [Hv _]]]]]].
  split; [exact Hin|]. apply (Forall2_repeat_l _ _ _ _ Hv).
Qed.

Lemma setitem_keeps (df : DataFrame) (col c : string) (v w : value)
  (df' : DataFrame) :
  setitem df col v = Ok df' -> well_formed df -> c <> col ->
  column_is df c w -> column_is df' c w.
Proof.
  intros H W N [Hin Hc]. apply setitem_ok in H. destruct H as [vals [-> [L _]]].
  destruct (assign_column_spec df col _ W L) as [_ [_ [_ [Hk [_ [_ Hr]]]]]].
  split; [apply Hk, Hin|].
  eapply Forall2_transfer; [exact Hr | exact Hc |].
  intros a b Hab Ha. cbn beta in *. rewrite (Hab c N Hin). exact Ha.
Qed.

Lemma cell_ok_unique (df : DataFrame) (c : string) (i : nat) (v : value) :
  cell df c i = Ok v ->
  occurrences c (columns df) = 1
  /\ exists r, nth_error (data df) i = Some r /\ v = get (columns df) r c.
Proof.
  unfold cell. destruct (occurrences c (columns df)) as [|[|n]]; try discriminate.
  destruct (nth_error (data df) i) as [r|]; try discriminate.
  intros H. injection H as <-. split; [reflexivity|]. exists r. auto.
Qed.

(** ** The carried columns of a sub-table *)

Lemma add_columns_spec (json_df : DataFrame) (i : nat) (carry : list string) :
  forall temp temp',
    add_columns json_df i carry temp = Ok temp' -> well_formed temp ->
    well_formed temp' /\ nrows temp' = nrows temp
    /\ (forall c, In c (columns temp) -> In c (columns temp'))
    /\ (forall c, In c (columns temp') -> In c carry \/ In c (columns temp))
    /\ (forall c, In c carry -> exists v, cell json_df c i = Ok v)
    /\ (forall c v, cell json_df c i = Ok v -> is_scalar v = true ->
          In c carry \/ column_is temp c v -> column_is temp' c v)
    /\ Forall2 (fun row row' => forall c, ~ In c carry -> In c (columns temp) ->
                  get (columns temp') row' c = get (columns temp) row c)
         (data temp) (data temp').
Proof.
  induction carry as [|c0 rest IH]; intros temp temp' H W.
  - simpl in H. injection H as <-. split_all; auto.
    + intros c [].
    + intros c v _ _ [[]|Hc]; exact Hc.
    + apply Forall2_same. reflexivity.
  - simpl in H. inv_bind H. rename a into v0. inv_bind H. rename a into temp1.
    pose proof (setitem_ok _ _ _ _ E0) as [vals [Et [L Hs]]].
    destruct (assign_column_spec temp c0 vals W L)
      as [W1 [N1 [In1 [Keep1 [Back1 [_ Rows1]]]]]].
    rewrite <- Et in *.
    destruct (IH temp1 temp' H W1) as [W' [N' [Keep' [Back' [Cells' [Is' Rows']]]]]].
    split_all.
    + exact W'.
    + congruence.
    + auto.
    + intros c Hc. destruct (Back' c Hc) as [Hr|Hr]; [left; right; exact Hr|].
      destruct (Back1 c Hr) as [->|Hr']; [left; left; reflexivity | right; exact Hr'].
    + intros c [<-|Hc]; [exists v0; exact E | apply Cells', Hc].
    + intros c v Hv S Hc. destruct (string_dec c c0) as [->|N].
      * assert (v = v0) by congruence. subst v0.
        apply (Is' c0 v Hv S). right.
        eapply setitem_column_is; eauto.
      * destruct Hc as [[Hc|Hc]|Hc]; [congruence | apply (Is' c v Hv S); left; exact Hc |].
        apply (Is' c v Hv S). right. eapply setitem_keeps; eauto.
    + eapply Forall2_compose; [exact Rows1 | exact Rows' |].
      intros a b d Hab Hbd c Hc Hin. cbn beta in *.
      rewrite Hbd; [apply Hab | | apply Keep1, Hin].
      * intros ->. apply Hc. left. reflexivity.
      * exact Hin.
      * intros Hr. apply Hc. right. exact Hr.
Qed.

(** ** Frames built from mappings *)

Lemma dedup_In (x : string) (l : list string) : In x (dedup l) <-> In x l.
Proof.
  induction l as [|y l IH]; simpl; [tauto|].
  rewrite filter_In, IH. split.
  - intros [H|[H _]]; auto.
  - intros [H|H]; [left; exact H|].
    destruct (String.eqb y x) eqn:E.
    + apply String.eqb_eq in E. left. exact E.
    + right. split; [exact H | reflexivity].
Qed.

Lemma dedup_NoDup (l : list string) : NoDup (dedup l).
Proof.
  induction l as [|y l IH]; simpl; constructor.
  - rewrite filter_In. intros [_ H]. rewrite String.eqb_refl in H. discriminate.
  - apply NoDup_filter, IH.
Qed.

Lemma holds_get (cols : list string) (row : list value) (c : string) (v : value) :
  In c cols -> length row = length cols -> get cols row c = v ->
  holds cols row c v.
Proof.
  intros H L E. split; [exact H|]. unfold get in E. rewrite <- E.
  apply nth_error_nth'. rewrite L. apply index_of_lt, H.
Qed.

Lemma holds_map (cols : list string) (f : string -> value) (c : string) :
  In c cols -> holds cols (map f cols) c (f c).
Proof.
  intros H. split; [exact H|].
  rewrite nth_error_map, (index_of_nth_error _ _ H). reflexivity.
Qed.

Lemma holds_value (cols : list string) (row : list value) (c : string)
  (v : value) :
  holds cols row c v -> get cols row c = v.
Proof.
  intros [_ H]. unfold get. apply nth_error_nth, H.
Qed.

Lemma assoc_In_keys (k : string) (d : record) (v : value) :
  assoc k d = Some v -> In k (map fst d).
Proof.
  induction d as [|[k' v'] d IH]; simpl; [discriminate|].
  destruct (String.eqb k' k) eqn:E.
  - apply String.eqb_eq in E. auto.
  - intros H. right. apply IH, H.
Qed.

Lemma Forall2_map_in {A B : Type} (P : A -> B -> Prop) (g : A -> B) (l : list A) :
  (forall a, In a l -> P a (g a)) -> Forall2 P l (map g l).
Proof.
  induction l as [|a l IH]; intros H; simpl; constructor.
  - apply H. left. reflexivity.
  - apply IH. intros b Hb. apply H. right. exact Hb.
Qed.

Lemma Forall2_map_l {A B C : Type} (P : A -> C -> Prop) (g : B -> A)
  (l : list B) (l' : list C) :
  Forall2 (fun b c => P (g b) c) l l' -> Forall2 P (map g l) l'.
Proof.
  intros H. induction H; simpl; constructor; auto.
Qed.

Lemma Forall2_map_r {A B C : Type} (P : A -> C -> Prop) (g : B -> C)
  (l : list A) (l' : list B) :
  Forall2 (fun a b => P a (g b)) l l' -> Forall2 P l (map g l').
Proof.
  intros H. induction H; simpl; constructor; auto.
Qed.

Lemma Forall2_weaken {A B : Type} (P Q : A -> B -> Prop) (l : list A)
  (l' : list B) :
  (forall a b, P a b -> Q a b) -> Forall2 P l l' -> Forall2 Q l l'.
Proof.
  intros HPQ H. induction H; constructor; auto.
Qed.

Lemma Forall2_and_r {A B : Type} (R : A -> B -> Prop) (Q : B -> Prop)
  (l : list A) (l' : list B) :
  Forall2 R l l' -> Forall Q l' -> Forall2 (fun a b => R a b /\ Q b) l l'.
Proof.
  intros H. induction H; intros HQ; constructor; inversion HQ; subst; auto.
Qed.

Lemma frame_of_records_well_formed (recs : list record) :
  well_formed (frame_of_records recs).
Proof.
  unfold well_formed, frame_of_records. cbn [columns data].
  apply Forall_forall. intros r Hr. apply in_map_iff in Hr.
  destruct Hr as [d [<- _]]. apply length_map.
Qed.

Lemma frame_of_records_nrows (recs : list record) :
  nrows (frame_of_records recs) = length recs.
Proof.
  unfold nrows, frame_of_records. cbn [data]. apply length_map.
Qed.

Lemma stored_kept (st : storage) (v : value) :
  kept_as_is v = true -> stored st v = v.
Proof.
  intros H. destruct st, v; cbn [kept_as_is stored] in *;
    try reflexivity; try discriminate.
  unfold to_float64. cbv zeta. rewrite H. reflexivity.
Qed.

Lemma stored_nan (st : storage) : stored st VNaN = VNaN.
Proof. destruct st; reflexivity. Qed.

Lemma frame_of_records_rows (recs : list record) :
  Forall2 (fun d row => forall k v, assoc k d = Some v -> kept_as_is v = true ->
             holds (columns (frame_of_records recs)) row k v)
    recs (data (frame_of_records recs)).
Proof.
  unfold frame_of_records. cbn [columns data].
  apply Forall2_map_in. intros d Hd k v Hk Hv.
  assert (Hin : In k (dedup (flat_map (map fst) recs))).
  { apply dedup_In, in_flat_map. exists d. split; [exact Hd|].
    eapply assoc_In_keys, Hk. }
  pose proof (holds_map _
    (fun c => stored (column_storage (map (field c) recs)) (field c d))
    k Hin) as H.
  assert (F : field k d = v) by (unfold field; rewrite Hk; reflexivity).
  cbn beta in H. rewrite F, (stored_kept _ _ Hv) in H. exact H.
Qed.

Lemma records_of_map (l : list value) (recs : list record) :
  records_of l = Some recs -> l = map VDict recs.
Proof.
  revert recs. induction l as [|x l IH]; intros recs H; simpl in H.
  - injection H as <-. reflexivity.
  - destruct x; try discriminate.
    destruct (records_of l) as [ds|]; try discriminate.
    injection H as <-. simpl. f_equal. apply IH. reflexivity.
Qed.

Lemma DataFrame_of_truthy (item : value) (temp : DataFrame) :
  truthy item = true -> DataFrame_of item = Ok temp ->
  exists recs, item = VList (map VDict recs) /\ temp = frame_of_records recs.
Proof.
  intros T H. destruct item; simpl in *; try discriminate.
  destruct (records_of l) as [recs|] eqn:E; try discriminate.
  injection H as <-. exists recs. split; [|reflexivity].
  f_equal. apply records_of_map, E.
Qed.

(** The sub-table of one parent row: one row per element, each carrying
    the parent's scalars and keeping the element's own values. *)
Lemma sub_table_spec (df : DataFrame) (carry : list string) (i : nat)
  (item : value) (temp sub : DataFrame) :
  truthy item = true -> DataFrame_of item = Ok temp ->
  add_columns df i carry temp = Ok sub ->
  well_formed sub
  /\ nrows sub = array_len item
  /\ Forall (carries_parent df carry (columns sub) i) (data sub)
  /\ Forall2 (keeps_element carry (columns sub)) (elements_of item) (data sub).
Proof.
  intros T HD HA.
  destruct (DataFrame_of_truthy _ _ T HD) as [recs [-> ->]].
  destruct (add_columns_spec df i carry _ _ HA (frame_of_records_well_formed recs))
    as [W [N [Keep [_ [Cells [Is Rows]]]]]].
  split_all.
  - exact W.
  - rewrite N, frame_of_records_nrows. simpl. rewrite length_map. reflexivity.
  - apply Forall_forall. intros row Hrow c Hc.
    destruct (Cells c Hc) as [v Hv]. exists v. split; [exact Hv|]. intros S.
    destruct (Is c v Hv S (or_introl Hc)) as [Hin Hall].
    rewrite Forall_forall in Hall.
    apply holds_get; [exact Hin | | apply Hall, Hrow].
    unfold well_formed in W. rewrite Forall_forall in W. apply W, Hrow.
  - simpl. apply Forall2_map_l.
    eapply Forall2_compose;
      [apply frame_of_records_rows | apply (Forall2_and_r _ _ _ _ Rows W) |].
    intros d row row' Hd [Hr Hl]. exists d. split; [reflexivity|].
    intros k v Hk Hn Hv. cbn beta in *.
    destruct (Hd k v Hk Hv) as [Hin Hnth].
    assert (Hg : get (columns sub) row' k = v).
    { rewrite (Hr k Hn Hin). apply holds_value. split; assumption. }
    apply holds_get; [apply Keep, Hin | exact Hl | exact Hg].
Qed.

(** ** Concatenation *)

Lemma concat_ok (frames : list DataFrame) (r : DataFrame) :
  concat frames = Ok r ->
  frames <> []
  /\ columns r = dedup (flat_map columns frames)
  /\ data r = flat_map (fun f => map (reindex (columns r) (columns f)) (data f))
                frames
  /\ Forall (fun f => unique_labels (columns f) = true) frames.
Proof.
  unfold concat. destruct frames as [|f fs]; [discriminate|].
  destruct (forallb (fun f => unique_labels (columns f)) (f :: fs)) eqn:E;
    [|discriminate].
  intros H. injection H as <-. cbn [columns data]. split_all; try reflexivity.
  - discriminate.
  - apply Forall_forall. rewrite forallb_forall in E. exact E.
Qed.

Lemma concat_columns_incl (frames : list DataFrame) (f : DataFrame) :
  In f frames -> incl (columns f) (dedup (flat_map columns frames)).
Proof.
  intros Hf c Hc. apply dedup_In, in_flat_map. exists f. auto.
Qed.

Lemma holds_reindex (u src : list string) (row : list value) (c : string)
  (v : value) :
  holds src row c v -> In c u -> holds u (reindex u src row) c v.
Proof.
  intros [Hin Hn] Hu. split; [exact Hu|].
  unfold reindex. rewrite nth_error_map, (index_of_nth_error _ _ Hu). cbn.
  rewrite (proj2 (mem_In c src) Hin). f_equal. unfold get.
  apply nth_error_nth, Hn.
Qed.

Lemma holds_clean (u : list string) (row : list value) (c : string) (v : value) :
  holds u row c v ->
  exists j, nth_error (map clean_name u) j = Some (clean_name c)
            /\ nth_error row j = Some v.
Proof.
  intros [Hin Hn]. exists (index_of c u). split; [|exact Hn].
  rewrite nth_error_map, (index_of_nth_error _ _ Hin). reflexivity.
Qed.

Lemma carries_parent_reindex (df : DataFrame) (carry u src : list string)
  (i : nat) (row : list value) :
  incl src u -> carries_parent df carry src i row ->
  carries_parent df carry u i (reindex u src row).
Proof.
  intros Hincl H c Hc. destruct (H c Hc) as [v [Hv Hs]].
  exists v. split; [exact Hv|]. intros S. specialize (Hs S).
  apply holds_reindex; [exact Hs | apply Hincl, Hs].
Qed.

Lemma keeps_element_reindex (carry u src : list string) (e : value)
  (row : list value) :
  incl src u -> keeps_element carry src e row ->
  keeps_element carry u e (reindex u src row).
Proof.
  intros Hincl [d [-> H]]. exists d. split; [reflexivity|].
  intros k v Hk Hn Hv. specialize (H k v Hk Hn Hv).
  apply holds_reindex; [exact H | apply Hincl, H].
Qed.

Lemma Forall2_repeat_map {A B C : Type} (R : A -> C -> Prop) (g : B -> C)
  (a : A) (n : nat) (l : list B) :
  length l = n -> Forall (fun b => R a (g b)) l ->
  Forall2 R (repeat a n) (map g l).
Proof.
  intros <- H. induction H; simpl; constructor; auto.
Qed.

Lemma falsy_array (v : value) :
  truthy v = false -> array_len v = 0 /\ elements_of v = [].
Proof.
  destruct v; simpl; auto. destruct l; [auto | discriminate].
Qed.

Lemma array_cell_ok (df : DataFrame) (col : string) (i : nat) (v : value) :
  cell df col i = Ok v -> array_cell df col i = v.
Proof.
  unfold array_cell. intros ->. reflexivity.
Qed.

(** ** extract_list_to_dataframe *)

Lemma expand_rows_spec (df : DataFrame) (col : string) (carry u : list string) :
  forall rows subs,
    expand_rows df col carry rows = Ok subs ->
    (forall f, In f subs -> incl (columns f) u) ->
    Forall2 (carries_parent df carry u)
      (flat_map (fun i => repeat i (array_len (array_cell df col i))) rows)
      (flat_map (fun f => map (reindex u (columns f)) (data f)) subs)
    /\ Forall2 (keeps_element carry u)
         (flat_map (fun i => elements_of (array_cell df col i)) rows)
         (flat_map (fun f => map (reindex u (columns f)) (data f)) subs).
Proof.
  induction rows as [|i rows IH]; intros subs H Hu.
  - simpl in H. injection H as <-. simpl. split; constructor.
  - simpl in H. inv_bind H. rename a into item.
    cbn [flat_map]. rewrite (array_cell_ok _ _ _ _ E).
    destruct (truthy item) eqn:T.
    + inv_bind H. rename a into temp. inv_bind H. rename a into sub.
      inv_bind H. rename a into rest. injection H as <-.
      destruct (sub_table_spec _ _ _ _ _ _ T E0 E1) as [W [N [HC HK]]].
      destruct (IH rest E2) as [IH1 IH2].
      { intros f Hf. apply Hu. right. exact Hf. }
      assert (Hs : incl (columns sub) u) by (apply Hu; left; reflexivity).
      cbn [flat_map]. split; apply Forall2_app; try assumption.
      * apply Forall2_repeat_map; [exact N|].
        eapply Forall_impl; [|exact HC].
        intros row Hrow. apply carries_parent_reindex; assumption.
      * apply Forall2_map_r. eapply Forall2_weaken; [|exact HK].
        intros e row He. apply keeps_element_reindex; assumption.
    + destruct (falsy_array _ T) as [-> ->]. simpl. apply IH; assumption.
Qed.

Lemma expander_spec (df : DataFrame) (col : string) (carry : list string)
  (out : DataFrame) :
  extract_list_to_dataframe df col carry = Ok out ->
  exists u,
    NoDup u /\ columns out = map clean_name u
    /\ Forall2 (carries_parent df carry u) (owners df col) (data out)
    /\ Forall2 (keeps_element carry u) (all_elements df col) (data out).
Proof.
  unfold extract_list_to_dataframe. intros H. inv_bind H. rename a into subs.
  destruct subs as [|f fs].
  - injection H as <-. exists []. split_all; try constructor;
      destruct (expand_rows_spec df col carry [] _ _ E) as [H1 H2];
      try (intros f []); assumption.
  - inv_bind H. rename a into r. destruct (clean_columns_ok _ _ H) as [Hlab ->].
    destruct (concat_ok _ _ E0) as [_ [Hc [Hd _]]].
    exists (columns r). cbn [columns data]. rewrite Hd.
    split_all.
    + rewrite Hc. apply dedup_NoDup.
    + reflexivity.
    + apply (expand_rows_spec df col carry (columns r) _ _ E).
      intros f' Hf'. rewrite Hc. apply concat_columns_incl, Hf'.
    + apply (expand_rows_spec df col carry (columns r) _ _ E).
      intros f' Hf'. rewrite Hc. apply concat_columns_incl, Hf'.
Qed.

(** ** extract_facilities_history *)

Lemma setitem_well_formed (df : DataFrame) (col : string) (v : value)
  (df' : DataFrame) :
  setitem df col v = Ok df' -> well_formed df ->
  well_formed df' /\ nrows df' = nrows df.
Proof.
  intros H W. apply setitem_ok in H. destruct H as [vals [-> [L _]]].
  destruct (assign_column_spec df col vals W L) as [W' [N' _]]. auto.
Qed.

Lemma select_row_ok (df : DataFrame) (i : nat) (labels : list string)
  (temp : DataFrame) :
  select_row df i labels = Ok temp -> well_formed temp /\ nrows temp = 1.
Proof.
  unfold select_row.
  destruct (existsb _ labels); [discriminate|].
  destruct (forallb _ labels); [|discriminate].
  destruct (nth_error (data df) i) as [r|]; [|discriminate].
  intros H. injection H as <-. split; [|reflexivity].
  constructor; [apply length_map | constructor].
Qed.

Lemma synthesize_row_spec (df : DataFrame) (i : nat) (matching : list string)
  (sub : DataFrame) :
  synthesize_row df i matching = Ok sub ->
  well_formed sub /\ nrows sub = 1
  /\ Forall (carries_parent df cols_facilities (columns sub) i) (data sub).
Proof.
  unfold synthesize_row. intros H.
  inv_bind H. rename a into temp. inv_bind H. rename a into temp1.
  inv_bind H. rename a into tunggakan. inv_bind H. rename a into arrears.
  inv_bind H. rename a into temp2.
  destruct (select_row_ok _ _ _ _ E) as [W0 N0].
  destruct (setitem_well_formed _ _ _ _ E0 W0) as [W1 N1].
  destruct (setitem_well_formed _ _ _ _ E3 W1) as [W2 N2].
  destruct (add_columns_spec df i cols_facilities _ _ H W2)
    as [W [N [_ [_ [Cells [Is _]]]]]].
  split_all.
  - exact W.
  - congruence.
  - apply Forall_forall. intros row Hrow c Hc.
    destruct (Cells c Hc) as [v Hv]. exists v. split; [exact Hv|]. intros S.
    destruct (Is c v Hv S (or_introl Hc)) as [Hin Hall].
    rewrite Forall_forall in Hall.
    apply holds_get; [exact Hin | | apply Hall, Hrow].
    unfold well_formed in W. rewrite Forall_forall in W. apply W, Hrow.
Qed.

Lemma history_rows_spec (df : DataFrame) (matching u : list string) :
  forall rows subs,
    history_rows df matching rows = Ok subs ->
    (forall f, In f subs -> incl (columns f) u) ->
    Forall2 (carries_parent df cols_facilities u)
      (flat_map (fun i =>
                   let v := array_cell df "riwayat_fasilitas" i in
                   repeat i (if truthy v then array_len v else 1)) rows)
      (flat_map (fun f => map (reindex u (columns f)) (data f)) subs).
Proof.
  induction rows as [|i rows IH]; intros subs H Hu.
  - simpl in H. injection H as <-. constructor.
  - cbn [history_rows] in H. inv_bind H. rename a into riwayat.
    inv_bind H. rename a into sub.
    inv_bind H. rename a into rest. injection H as <-.
    cbn [flat_map]. cbv zeta. rewrite (array_cell_ok _ _ _ _ E).
    assert (Hs : incl (columns sub) u) by (apply Hu; left; reflexivity).
    apply Forall2_app.
    + destruct (truthy riwayat) eqn:T.
      * inv_bind E0. rename a into temp.
        destruct (sub_table_spec _ _ _ _ _ _ T E2 E0) as [W [N [HC _]]].
        apply Forall2_repeat_map; [exact N|].
        eapply Forall_impl; [|exact HC].
        intros row Hrow. apply carries_parent_reindex; assumption.
      * destruct (synthesize_row_spec _ _ _ _ E0) as [W [N HC]].
        apply Forall2_repeat_map; [exact N|].
        eapply Forall_impl; [|exact HC].
        intros row Hrow. apply carries_parent_reindex; assumption.
    + apply IH; [exact E1|]. intros f Hf. apply Hu. right. exact Hf.
Qed.

Lemma reconciler_spec (df out : DataFrame) :
  extract_facilities_history df = Ok out ->
  exists u,
    NoDup u /\ columns out = map clean_name u
    /\ Forall2 (carries_parent df cols_facilities u) (history_owners df) (data out).
Proof.
  unfold extract_facilities_history. intros H.
  inv_bind H. rename a into keys. inv_bind H. rename a into matching.
  inv_bind H. rename a into subs. inv_bind H. rename a into r.
  destruct (clean_columns_ok _ _ H) as [Hlab ->].
  destruct (concat_ok _ _ E2) as [_ [Hc [Hd _]]].
  exists (columns r). cbn [columns data]. rewrite Hd.
  split_all.
  - rewrite Hc. apply dedup_NoDup.
  - reflexivity.
  - apply (history_rows_spec df matching (columns r) _ _ E1).
    intros f' Hf'. rewrite Hc. apply concat_columns_incl, Hf'.
Qed.

(** ** The List Expander returns a table on arrays of mappings *)










Lemma add_columns_carry_present (df : DataFrame) (i : nat) (carry : list string) :
  forall temp sub,
    add_columns df i carry temp = Ok sub -> well_formed temp ->
    forall c, In c carry -> In c (columns sub).
Proof.
  induction carry as [|c0 rest IH]; intros temp sub H W c Hc; [contradiction|].
  cbn [add_columns] in H. inv_bind H. rename a into v0.
  inv_bind H. rename a into temp1.
  destruct (setitem_well_formed _ _ _ _ E0 W) as [W1 _].
  destruct Hc as [<-|Hc].
  - destruct (add_columns_spec df i rest _ _ H W1) as [_ [_ [Keep _]]].
    apply Keep. pose proof (setitem_ok _ _ _ _ E0) as [vals [-> [L _]]].
    destruct (assign_column_spec temp c0 vals W L) as [_ [_ [Hin _]]].
    exact Hin.
  - eapply IH; eauto.
Qed.

Lemma sub_table_labels (df : DataFrame) (carry : list string) (i : nat)
  (item : value) (temp sub : DataFrame) :
  truthy item = true -> DataFrame_of item = Ok temp ->
  add_columns df i carry temp = Ok sub ->
  array_len item <> 0
  /\ forall c, In c (columns sub) <->
       In c carry
       \/ exists d, In (VDict d) (elements_of item) /\ In c (map fst d).
Proof.
  intros T HD HA.
  destruct (DataFrame_of_truthy _ _ T HD) as [recs [-> ->]].
  pose proof (frame_of_records_well_formed recs) as W0.
  destruct (add_columns_spec df i carry _ _ HA W0) as [_ [_ [Keep [Back _]]]].
  split.
  - simpl in *. destruct recs; [discriminate | simpl; lia].
  - assert (Hk : forall c, In c (columns (frame_of_records recs)) <->
                   exists d, In (VDict d) (map VDict recs) /\ In c (map fst d)).
    { intros c. unfold frame_of_records. cbn [columns].
      rewrite dedup_In, in_flat_map. split.
      - intros [d [Hd Hc]]. exists d. split; [apply in_map, Hd | exact Hc].
      - intros [d [Hd Hc]]. exists d. split; [|exact Hc].
        apply in_map_iff in Hd. destruct Hd as [d' [E Hd']].
        injection E as ->. exact Hd'. }
    intros c. simpl elements_of. split.
    + intros Hc. destruct (Back c Hc) as [H|H]; [left; exact H|].
      right. apply Hk, H.
    + intros [H|H].
      * eapply add_columns_carry_present; eauto.
      * apply Keep, Hk, H.
Qed.

Lemma expand_rows_subs (df : DataFrame) (col : string) (carry : list string) :
  forall rows subs,
    expand_rows df col carry rows = Ok subs ->
    Forall (fun f => 0 < nrows f /\ forall c, In c carry -> In c (columns f)) subs.
Proof.
  induction rows as [|i rows IH]; intros subs H.
  - simpl in H. injection H as <-. constructor.
  - cbn [expand_rows] in H. inv_bind H. rename a into item.
    destruct (truthy item) eqn:T; [|apply IH, H].
    inv_bind H. rename a into temp. inv_bind H. rename a into sub.
    inv_bind H. rename a into rest. injection H as <-.
    constructor; [|apply IH, E2].
    destruct (sub_table_labels _ _ _ _ _ _ T E0 E1) as [Hlen Hl].
    destruct (sub_table_spec _ _ _ _ _ _ T E0 E1) as [_ [N _]].
    split; [lia|]. intros c Hc. apply Hl. left. exact Hc.
Qed.


Lemma flat_map_repeat_length (f : nat -> nat) (rows : list nat) :
  length (flat_map (fun i => repeat i (f i)) rows) = list_sum (map f rows).
Proof.
  induction rows as [|i rows IH]; simpl; [reflexivity|].
  rewrite length_app, repeat_length, IH. reflexivity.
Qed.

Lemma carries_parent_clean (df : DataFrame) (carry u : list string) (i : nat)
  (row : list value) :
  carries_parent df carry u i row -> carries df carry (map clean_name u) i row.
Proof.
  intros H c Hc. destruct (H c Hc) as [v [Hv Hs]]. exists v.
  split; [exact Hv|]. intros S. apply holds_clean, Hs, S.
Qed.

Lemma expander_rows (df : DataFrame) (col : string) (carry : list string)
  (out : DataFrame) :
  extract_list_to_dataframe df col carry = Ok out ->
  nrows out
  = list_sum (map (fun i => array_len (array_cell df col i)) (seq 0 (nrows df)))
  /\ Forall2 (carries df carry (columns out)) (owners df col) (data out).
Proof.
  intros H. destruct (expander_spec _ _ _ _ H) as [u [_ [Hc [Ho He]]]].
  split_all.
  - unfold nrows at 1. rewrite <- (Forall2_length Ho). unfold owners.
    apply flat_map_repeat_length.
  - rewrite Hc. eapply Forall2_weaken; [|exact Ho].
    intros i row. apply carries_parent_clean.
Qed.

(** ** extract_pefindo_data *)

Lemma pipeline_ok (json_df : DataFrame) (t : tables) :
  extract_pefindo_data json_df = Ok t ->
  extract_list_to_dataframe json_df "scoring" cols_basic
  = Ok (pefindo_scoring t)
  /\ extract_list_to_dataframe json_df "report.fasilitas" cols_basic
     = Ok (pefindo_facilities t)
  /\ extract_facilities_history (pefindo_facilities t)
     = Ok (pefindo_facilities_history t)
  /\ extract_list_to_dataframe (pefindo_facilities t) "agunan" cols_facilities
     = Ok (pefindo_facilities_collateral t)
  /\ extract_list_to_dataframe (pefindo_facilities t) "penjamin" cols_facilities
     = Ok (pefindo_facilities_guarantor t)
  /\ extract_list_to_dataframe json_df "report.permintaan_data" cols_basic
     = Ok (pefindo_inquiry t)
  /\ extract_list_to_dataframe json_df "report.summary_permintaan_data" cols_basic
     = Ok (pefindo_inquiry_summary t)
  /\ extract_list_to_dataframe json_df "report.riwayat_identitas_debitur" cols_basic
     = Ok (pefindo_information_history t)
  /\ extract_list_to_dataframe json_df "report.summary_riwayat_debitur" cols_basic
     = Ok (pefindo_collectibility_history t).
Proof.
  unfold extract_pefindo_data. intros H.
  inv_bind H. inv_bind H. inv_bind H. inv_bind H. inv_bind H.
  inv_bind H. inv_bind H. inv_bind H. inv_bind H. inv_bind H.
  injection H as <-. cbn [pefindo_scoring pefindo_facilities
    pefindo_facilities_history pefindo_facilities_collateral
    pefindo_facilities_guarantor pefindo_inquiry pefindo_inquiry_summary
    pefindo_information_history pefindo_collectibility_history].
  split_all; assumption.
Qed.



(** ** Identifier columns *)

Lemma Forall2_In_r {A B : Type} (R : A -> B -> Prop) (l : list A) (l' : list B)
  (b : B) :
  Forall2 R l l' -> In b l' -> exists a, In a l /\ R a b.
Proof.
  intros H. induction H as [|x y l l' Hxy H IH]; intros Hb; [contradiction|].
  destruct Hb as [<-|Hb].
  - exists x. split; [left; reflexivity | exact Hxy].
  - destruct (IH Hb) as [a [Ha Hr]]. exists a. split; [right; exact Ha | exact Hr].
Qed.

Lemma owners_lt (df : DataFrame) (col : string) (i : nat) :
  In i (owners df col) -> i < nrows df.
Proof.
  unfold owners. intros H. apply in_flat_map in H. destruct H as [k [Hk Hi]].
  apply repeat_spec in Hi. subst. apply in_seq in Hk. lia.
Qed.

Lemma history_owners_lt (df : DataFrame) (i : nat) :
  In i (history_owners df) -> i < nrows df.
Proof.
  unfold history_owners. intros H. apply in_flat_map in H.
  destruct H as [k [Hk Hi]]. cbv zeta in Hi.
  apply repeat_spec in Hi. subst. apply in_seq in Hk. lia.
Qed.

Lemma unique_position (c : string) (cols : list string) (j : nat) :
  occurrences c cols = 1 -> nth_error cols j = Some c -> j = index_of c cols.
Proof.
  unfold occurrences. revert j. induction cols as [|x cols IH]; intros j H Hj.
  - destruct j; discriminate.
  - simpl in H. simpl. destruct (string_dec x c) as [->|N].
    + rewrite String.eqb_refl. destruct j as [|j]; [reflexivity|].
      simpl in Hj. apply nth_error_In in Hj.
      apply (count_occ_In string_dec) in Hj. lia.
    + destruct (String.eqb x c) eqn:E.
      * apply String.eqb_eq in E. contradiction.
      * destruct j as [|j]; simpl in Hj; [congruence|].
        f_equal. apply IH; assumption.
Qed.

Lemma cell_at_unique_label (out : DataFrame) (c : string) (k j : nat)
  (row : list value) (v : value) :
  nth_error (data out) k = Some row ->
  nth_error (columns out) j = Some c ->
  nth_error row j = Some v ->
  occurrences c (columns out) = 1 ->
  cell out c k = Ok v.
Proof.
  intros Hrow Hj Hv Ho. unfold cell. rewrite Ho, Hrow. f_equal.
  apply (unique_position _ _ _ Ho) in Hj. subst j.
  unfold get. apply nth_error_nth, Hv.
Qed.

Lemma identifier_pair (c_report c_child : string) :
  In (c_report, c_child) (combine cols_basic identifier_columns) ->
  In c_report cols_basic /\ In c_child cols_facilities
  /\ clean_name c_report = c_child /\ clean_name c_child = c_child.
Proof.
  intros H. simpl in H.
  repeat (destruct H as [H|H];
          [injection H as <- <-; split_all;
           [simpl; tauto | simpl; tauto | reflexivity | reflexivity]|]).
  contradiction.
Qed.

(** The rows of a table expanded from the one-row report record. *)
Lemma first_level_identifies (json_df child : DataFrame) (col : string) :
  nrows json_df = 1 ->
  extract_list_to_dataframe json_df col cols_basic = Ok child ->
  identifies json_df child.
Proof.
  intros N H row Hrow c_report c_child Hp.
  destruct (identifier_pair _ _ Hp) as [Hin [_ [Hclean _]]].
  destruct (expander_rows _ _ _ _ H) as [_ Ho].
  destruct (Forall2_In_r _ _ _ _ Ho Hrow) as [i [Hi Hc]].
  apply owners_lt in Hi. assert (i = 0) by lia. subst i.
  destruct (Hc c_report Hin) as [v [Hv Hs]]. exists v.
  rewrite Hclean in Hs. auto.
Qed.

(** The rows of a table expanded from the facilities table. *)
Lemma second_level_identifies (json_df fac child : DataFrame)
  (sources : list nat) :
  identifies json_df fac ->
  (forall i, In i sources -> i < nrows fac) ->
  Forall2 (carries fac cols_facilities (columns child)) sources (data child) ->
  identifies json_df child.
Proof.
  intros Hfac Hlt Ho row Hrow c_report c_child Hp.
  destruct (identifier_pair _ _ Hp) as [_ [Hin [_ Hclean]]].
  destruct (Forall2_In_r _ _ _ _ Ho Hrow) as [i [Hi Hc]].
  destruct (Hc c_child Hin) as [w [Hw Hs]].
  destruct (cell_ok_unique _ _ _ _ Hw) as [Hu [r [Hr ->]]].
  destruct (Hfac r (nth_error_In _ _ Hr) c_report c_child Hp) as [v [Hv Hj]].
  exists v. split; [exact Hv|]. intros S.
  destruct (Hj S) as [j [Hj1 Hj2]].
  apply (unique_position _ _ _ Hu) in Hj1. subst j.
  assert (G : get (columns fac) r c_child = v)
    by (unfold get; apply nth_error_nth, Hj2).
  rewrite G, Hclean in Hs. apply Hs, S.
Qed.

Lemma children_identify (json_df : DataFrame) (t : tables)
  (child : DataFrame) :
  extract_pefindo_data json_df = Ok t ->
  nrows json_df = 1 ->
  In child (child_tables t) ->
  identifies json_df child.
Proof.
  intros H N Hchild.
  destruct (pipeline_ok _ _ H)
    as [Hsc [Hfa [Hhi [Hco [Hgu [Hin [Hins [Hih Hch]]]]]]]].
  pose proof (first_level_identifies _ _ _ N Hfa) as Hfac.
  unfold child_tables in Hchild. simpl in Hchild.
  destruct Hchild as [<-|[<-|[<-|[<-|[<-|[<-|[<-|[<-|[<-|[]]]]]]]]]].
  - eapply first_level_identifies; eauto.
  - exact Hfac.
  - destruct (reconciler_spec _ _ Hhi) as [u [_ [Hc Ho]]].
    apply (second_level_identifies _ _ _ (history_owners (pefindo_facilities t)) Hfac).
    + apply history_owners_lt.
    + rewrite Hc. eapply Forall2_weaken; [|exact Ho].
      intros i row. apply carries_parent_clean.
  - destruct (expander_rows _ _ _ _ Hco) as [_ Ho].
    apply (second_level_identifies _ _ _ _ Hfac (owners_lt _ _) Ho).
  - destruct (expander_rows _ _ _ _ Hgu) as [_ Ho].
    apply (second_level_identifies _ _ _ _ Hfac (owners_lt _ _) Ho).
  - eapply first_level_identifies; eauto.
  - eapply first_level_identifies; eauto.
  - eapply first_level_identifies; eauto.
  - eapply first_level_identifies; eauto.
Qed.

(** C1, as the code has it: when the extraction of a one-row report record
    returns its tables, the report record holds a value under the label of
    each identifier column, and every row of every child table holds that
    value in the column named after the identifier, provided the value is a
    scalar and no other column of the child table has that name. A null of
    the report is carried as a null. *)
Theorem identifier_columns_follow_report (json_df : DataFrame) (t : tables)
  (child : DataFrame) (c_report c_child : string) (k : nat) :
  extract_pefindo_data json_df = Ok t ->
  nrows json_df = 1 ->
  In child (child_tables t) ->
  In (c_report, c_child) (combine cols_basic identifier_columns) ->
  k < nrows child ->
  exists v,
    cell json_df c_report 0 = Ok v
    /\ (is_scalar v = true ->
        occurrences c_child (columns child) = 1 ->
        cell child c_child k = Ok v).
Proof.
  intros H N Hchild Hp Hk.
  pose proof (children_identify _ _ _ H N Hchild) as Hid.
  destruct (nth_error (data child) k) as [row|] eqn:Hrow.
  - destruct (Hid row (nth_error_In _ _ Hrow) c_report c_child Hp)
      as [v [Hv Hs]].
    exists v. split; [exact Hv|]. intros S Ho.
    destruct (Hs S) as [j [Hj1 Hj2]].
    apply (cell_at_unique_label _ _ _ j row); assumption.
  - apply nth_error_None in Hrow. unfold nrows in Hk. lia.
Qed.

Lemma identifier_columns_follow_report_witness :
  exists v,
    cell sample_report "report.debitur.npwp" 0 = Ok v
    /\ (is_scalar v = true ->
        occurrences "npwp" (columns (pefindo_facilities_collateral sample_tables)) = 1 ->
        cell (pefindo_facilities_collateral sample_tables) "npwp" 1 = Ok v).
Proof.
  apply (identifier_columns_follow_report sample_report sample_tables).
  - vm_compute. reflexivity.
  - reflexivity.
  - simpl. tauto.
  - simpl. tauto.
  - vm_compute. reflexivity.
Defined.

(** The tax id of the sample report in the second collateral row. *)
Example collateral_row_holds_tax_id :
  cell sample_report "report.debitur.npwp" 0 = Ok (VStr "01.234")
  /\ cell (pefindo_facilities_collateral sample_tables) "npwp" 1
     = Ok (VStr "01.234").
Proof. split; reflexivity. Qed.

(** A report whose tax id is null is extracted, and the row of the scoring
    table holds a null under the identifier column [npwp]. *)
Lemma null_identifier_is_carried :
  cell null_npwp_report "report.debitur.npwp" 0 = Ok VNone
  /\ exists t,
       extract_pefindo_data null_npwp_report = Ok t
       /\ nrows (pefindo_scoring t) = 1
       /\ cell (pefindo_scoring t) "npwp" 0 = Ok VNone.
Proof.
  split; [reflexivity|].
  exists (tables_of null_npwp_report). vm_compute. repeat split.
Qed.

(** C1 as stated fails in three ways. A null tax id of the report is a null
    in the child rows. An identity-history element with an identity number
    of its own leaves two columns named [nomor_identitas], the first with
    the element's value, so that the identifier column of that name is not
    the report's. An e-mail cell that is an array of two addresses is
    spread over the two scoring rows, one address each. *)
Lemma identifier_values_may_differ :
  (cell null_npwp_report "report.debitur.npwp" 0 = Ok VNone
   /\ exists t,
        extract_pefindo_data null_npwp_report = Ok t
        /\ cell (pefindo_scoring t) "npwp" 0 = Ok VNone)
  /\ (cell colliding_report "report.debitur.nomor_identitas" 0 = Ok (VStr "3174")
      /\ exists t,
           extract_pefindo_data colliding_report = Ok t
           /\ columns (pefindo_information_history t)
              = [ "nomor_identitas"; "alamat"; "username"; "nomor_identitas";
                  "id_report"; "tgl_permintaan"; "npwp"; "email"; "telepon" ]
           /\ nth_error (data (pefindo_information_history t)) 0
              = Some [ VStr "OLD-999"; VStr "Jl. A"; VStr "ops"; VStr "3174";
                       VStr "R-1"; VStr "2024-01-31"; VStr "01.234";
                       VStr "a@b.id"; VStr "0812" ]
           /\ cell (pefindo_information_history t) "nomor_identitas" 0
              = Raise KeyError)
  /\ (cell array_email_report "report.debitur.email" 0
      = Ok (VList [VStr "a@b.id"; VStr "c@d.id"])
      /\ exists t,
           extract_pefindo_data array_email_report = Ok t
           /\ cell (pefindo_scoring t) "email" 0 = Ok (VStr "a@b.id")
           /\ cell (pefindo_scoring t) "email" 1 = Ok (VStr "c@d.id")).
Proof.
  split_all.
  - reflexivity.
  - exists (tables_of null_npwp_report). vm_compute. split; reflexivity.
  - reflexivity.
  - exists (tables_of colliding_report). vm_compute. repeat split.
  - reflexivity.
  - exists (tables_of array_email_report). vm_compute. repeat split.
Qed.

(** ** Rows of an expansion, by position and by name *)





(** The element's own value under the carry label is gone, in the List
    Expander and in the snapshot rows of the reconciler. *)
Example own_key_is_overwritten :
  extract_list_to_dataframe own_key_table "items" ["fk"]
  = Ok (mkDF ["fk"; "a"] [[VStr "parent"; VInt 1]])
  /\ cell own_key_facility_table "id_pelapor" 0 = Ok (VStr "P1")
  /\ extract_facilities_history own_key_facility_table = Ok own_key_history
  /\ cell own_key_history "id_pelapor" 0 = Ok (VStr "P1").
Proof. repeat split. Qed.




(** Rows [r0; r1] with two elements and none, or with two elements and a
    null: exactly two rows, both with the key of [r0], in array order. *)
Example two_row_expansion :
  extract_list_to_dataframe two_row_table "items" ["fk"]
  = Ok (mkDF ["a"; "fk"] [[VInt 1; VStr "r0"]; [VInt 2; VStr "r0"]])
  /\ owners two_row_table "items" = [0; 0]
  /\ extract_list_to_dataframe null_row_table "items" ["fk"]
     = Ok (mkDF ["a"; "fk"] [[VInt 1; VStr "r0"]; [VInt 2; VStr "r0"]])
  /\ owners null_row_table "items" = [0; 0].
Proof. repeat split. Qed.


(** ** Empty results and absent columns *)

Lemma expand_rows_falsy (df : DataFrame) (col : string) (carry : list string)
  (rows : list nat) :
  Forall (fun i => exists v, cell df col i = Ok v /\ truthy v = false) rows ->
  expand_rows df col carry rows = Ok [].
Proof.
  intros H. induction H as [|i rows [v [Hv T]] H IH]; [reflexivity|].
  cbn [expand_rows]. rewrite Hv. cbn [bind]. rewrite T. exact IH.
Qed.

(** C5, as the code has it: when the array cell of every row is an empty
    array, a null or another false value, the List Expander returns the
    empty table with zero columns; expanding that empty table again, on any
    column and carry list, returns the empty table too. *)
Theorem list_expander_empty_result (df : DataFrame) (col col' : string)
  (carry carry' : list string) :
  (forall i, i < nrows df -> exists v, cell df col i = Ok v /\ truthy v = false) ->
  extract_list_to_dataframe df col carry = Ok empty_frame
  /\ extract_list_to_dataframe empty_frame col' carry' = Ok empty_frame.
Proof.
  intros H. split; [|reflexivity].
  unfold extract_list_to_dataframe. rewrite expand_rows_falsy; [reflexivity|].
  apply Forall_forall. intros i Hi. apply in_seq in Hi. apply H. lia.
Qed.

Lemma list_expander_empty_result_witness :
  extract_list_to_dataframe empty_arrays_table "agunan" ["fk"] = Ok empty_frame
  /\ extract_list_to_dataframe empty_frame "penjamin" ["fk"] = Ok empty_frame.
Proof.
  apply (list_expander_empty_result empty_arrays_table "agunan" "penjamin").
  intros [|[|i]] Hi.
  - exists (VList []). split; reflexivity.
  - exists VNone. split; reflexivity.
  - unfold nrows, empty_arrays_table in Hi. simpl in Hi. lia.
Defined.

(** C5 as stated fails: a cell that is missing (NaN) is true in Python, the
    frame constructor rejects it, and the expansion raises; a table that
    lacks the array column raises as well. *)
Lemma missing_array_raises :
  extract_list_to_dataframe missing_array_table "agunan" ["fk"]
  = Raise ValueError
  /\ extract_list_to_dataframe no_array_table "agunan" ["fk"] = Raise KeyError.
Proof. split; reflexivity. Qed.

Lemma expand_rows_reads_carry (df : DataFrame) (col : string)
  (carry : list string) :
  forall rows subs,
    expand_rows df col carry rows = Ok subs ->
    forall i v c, In i rows -> cell df col i = Ok v -> truthy v = true ->
      In c carry -> occurrences c (columns df) = 1.
Proof.
  induction rows as [|k rows IH]; intros subs H i v c Hi Hv T Hc; [contradiction|].
  cbn [expand_rows] in H. inv_bind H. rename a into item.
  destruct Hi as [->|Hi].
  - assert (item = v) by congruence. subst item. rewrite T in H.
    inv_bind H. rename a into temp. inv_bind H. rename a into sub.
    destruct (DataFrame_of_truthy _ _ T E0) as [recs [_ ->]].
    destruct (add_columns_spec df i carry _ _ E1 (frame_of_records_well_formed recs))
      as [_ [_ [_ [_ [Cells _]]]]].
    destruct (Cells c Hc) as [w Hw].
    apply (cell_ok_unique _ _ _ _ Hw).
  - destruct (truthy item).
    + inv_bind H. inv_bind H. inv_bind H. eapply IH; eauto.
    + eapply IH; eauto.
Qed.

(** C7, as the code has it: on a table with at least one row the List
    Expander raises KeyError when the array column is absent, and returns no
    table when a carry column is absent and some row holds a non-empty
    array. *)
Theorem list_expander_absent_column (df : DataFrame) (col : string)
  (carry : list string) :
  0 < nrows df ->
  (occurrences col (columns df) = 0 ->
   extract_list_to_dataframe df col carry = Raise KeyError)
  /\ (forall c i v,
        In c carry -> occurrences c (columns df) = 0 ->
        cell df col i = Ok v -> truthy v = true ->
        forall out, extract_list_to_dataframe df col carry <> Ok out).
Proof.
  intros N. split.
  - intros H. unfold extract_list_to_dataframe, nrows in *.
    destruct (data df) as [|r rows] eqn:E; [simpl in N; lia|].
    cbn [length seq expand_rows]. unfold cell. rewrite H. reflexivity.
  - intros c i v Hc H0 Hv T out Hout.
    unfold extract_list_to_dataframe in Hout. inv_bind Hout. rename a into subs.
    assert (Hi : In i (seq 0 (nrows df))).
    { apply in_seq. destruct (cell_ok_unique _ _ _ _ Hv) as [_ [r [Hr _]]].
      assert (i < length (data df)) by (apply nth_error_Some; congruence).
      unfold nrows. lia. }
    pose proof (expand_rows_reads_carry _ _ _ _ _ E i v c Hi Hv T Hc). lia.
Qed.

Lemma list_expander_absent_column_witness :
  (occurrences "agunan" (columns no_array_table) = 0 ->
   extract_list_to_dataframe no_array_table "agunan" ["fk"] = Raise KeyError)
  /\ (forall c i v,
        In c ["fk"] -> occurrences c (columns no_array_table) = 0 ->
        cell no_array_table "agunan" i = Ok v -> truthy v = true ->
        forall out,
          extract_list_to_dataframe no_array_table "agunan" ["fk"] <> Ok out).
Proof.
  apply (list_expander_absent_column no_array_table "agunan" ["fk"]).
  unfold nrows, no_array_table. simpl. lia.
Defined.

(** C7 as stated fails: a table without rows is expanded to the empty table
    although it has neither the array column nor the carry column, and so
    is a table whose arrays are all empty although the carry column is
    absent. *)
Lemma absent_columns_pass_unnoticed :
  extract_list_to_dataframe empty_frame "items" ["fk"] = Ok empty_frame
  /\ extract_list_to_dataframe empty_arrays_table "agunan" ["id_report"]
     = Ok empty_frame.
Proof. split; reflexivity. Qed.

(** ** The reconciler on a table without rows or without history *)

(** C6, as the code has it: on a facility table without rows the
    reconciler raises a built-in exception, never EmptyInputError: KeyError
    when the history column is absent, TypeError when it occurs once,
    AttributeError when it occurs twice or more. *)
Theorem reconciler_fails_on_empty_table (df : DataFrame) :
  nrows df = 0 ->
  exists e,
    extract_facilities_history df = Raise e
    /\ e <> EmptyInputError
    /\ e = match occurrences "riwayat_fasilitas" (columns df) with
           | 0 => KeyError
           | 1 => TypeError
           | _ => AttributeError
           end.
Proof.
  intros N. unfold nrows in N. apply length_zero_iff_nil in N.
  unfold extract_facilities_history, sample_keys. rewrite N.
  destruct (occurrences "riwayat_fasilitas" (columns df)) as [|[|n]] eqn:E.
  - exists KeyError. split_all; [reflexivity | discriminate | reflexivity].
  - exists TypeError. split_all; [|discriminate | reflexivity].
    cbn [map find_sample_keys bind matching_cols].
    destruct (columns df) as [|c cols]; [discriminate | reflexivity].
  - exists AttributeError. split_all; [reflexivity | discriminate | reflexivity].
Qed.

Lemma reconciler_fails_on_empty_table_witness :
  exists e,
    extract_facilities_history empty_frame = Raise e
    /\ e <> EmptyInputError
    /\ e = match occurrences "riwayat_fasilitas" (columns empty_frame) with
           | 0 => KeyError
           | 1 => TypeError
           | _ => AttributeError
           end.
Proof.
  apply (reconciler_fails_on_empty_table empty_frame). reflexivity.
Defined.

(** C6 as stated fails: the empty table the List Expander returns for a
    report without facilities makes the reconciler raise KeyError, which is
    not EmptyInputError. *)
Lemma empty_table_raises_key_error :
  extract_list_to_dataframe (report VNone []) "report.fasilitas" cols_basic
  = Ok empty_frame
  /\ extract_facilities_history empty_frame = Raise KeyError
  /\ extract_facilities_history empty_frame <> Raise EmptyInputError.
Proof. split; [reflexivity | split; [reflexivity | discriminate]]. Qed.

(** C2 at a facility table with one facility, no history and arrears 1500:
    no facility has a snapshot, [sample_keys] stays [None], and the test
    [col in sample_keys] raises TypeError instead of giving the one
    synthesized row. *)
Lemma lone_facility_without_history_raises :
  sample_keys lone_facility_table = Ok None
  /\ extract_facilities_history lone_facility_table = Raise TypeError.
Proof. split; reflexivity. Qed.

(** Where some facility has a snapshot the synthesized rows are as C2 says:
    arrears 1500 give status 1, arrears 0 give status 0, each with
    snapshot order 1, after the snapshot of the first facility. *)
Example synthesized_rows_after_a_snapshot :
  option_map
    (fun out => map (fun row => (get (columns out) row "nomor_rekening_fasilitas",
                                 get (columns out) row "snapshot_order",
                                 get (columns out) row "status_tunggakan"))
                    (data out))
    (match extract_facilities_history arrears_table with
     | Ok out => Some out
     | _ => None
     end)
  = Some [ (VStr "ACC-1", VInt 3, VNaN);
           (VStr "ACC-2", VInt 1, VInt 1);
           (VStr "ACC-3", VInt 1, VInt 0) ].
Proof. reflexivity. Qed.

Lemma single_row (df : DataFrame) :
  nrows df = 1 -> exists row, data df = [row].
Proof.
  unfold nrows. destruct (data df) as [|row [|row' rows]]; simpl; intros H;
    try discriminate. exists row. reflexivity.
Qed.

(** The [else] branch, whenever it returns: one row, with snapshot order 1
    and the status given by the sign of the facility's arrears. *)
Lemma synthesize_row_values (df : DataFrame) (i : nat) (matching : list string)
  (sub : DataFrame) :
  synthesize_row df i matching = Ok sub ->
  exists row tunggakan arrears,
    data sub = [row]
    /\ cell df "tunggakan_pokok" i = Ok tunggakan
    /\ gt_zero tunggakan = Ok arrears
    /\ holds (columns sub) row "snapshot_order" (VInt 1)
    /\ holds (columns sub) row "status_tunggakan"
         (VInt (if arrears then 1 else 0)).
Proof.
  unfold synthesize_row. intros H.
  inv_bind H. rename a into temp. inv_bind H. rename a into temp1.
  inv_bind H. rename a into tunggakan. inv_bind H. rename a into arrears.
  inv_bind H. rename a into temp2.
  destruct (select_row_ok _ _ _ _ E) as [W0 N0].
  destruct (setitem_well_formed _ _ _ _ E0 W0) as [W1 N1].
  destruct (setitem_well_formed _ _ _ _ E3 W1) as [W2 N2].
  pose proof (setitem_column_is _ _ _ _ E0 W0 eq_refl) as S1.
  assert (S2 : column_is temp2 "snapshot_order" (VInt 1)).
  { eapply setitem_keeps; [exact E3 | exact W1 | discriminate | exact S1]. }
  pose proof (setitem_column_is _ _ _ _ E3 W1 eq_refl) as T2.
  destruct (add_columns_spec df i cols_facilities _ _ H W2)
    as [W [N [Keep [_ [_ [_ Rows]]]]]].
  destruct (single_row temp2) as [row2 Hrow2]; [congruence|].
  destruct (single_row sub) as [row Hrow]; [congruence|].
  rewrite Hrow2, Hrow in Rows. inversion Rows as [|? ? ? ? Hr _]; subst.
  unfold well_formed in W. rewrite Hrow in W. inversion W as [|? ? Hl _]; subst.
  destruct S2 as [In2 All2]. destruct T2 as [In3 All3].
  rewrite Hrow2 in All2, All3.
  inversion All2 as [|? ? G2 _]; subst. inversion All3 as [|? ? G3 _]; subst.
  exists row, tunggakan, arrears. split_all; try assumption; try reflexivity.
  - apply holds_get; [apply Keep, In2 | exact Hl |].
    rewrite Hr; [exact G2 | | exact In2].
    simpl. intuition discriminate.
  - apply holds_get; [apply Keep, In3 | exact Hl |].
    rewrite Hr; [exact G3 | | exact In3].
    simpl. intuition discriminate.
Qed.

(** * Further properties of the extractor *)

(** ** clean_column_names removes a leading namespace *)

(** A label that starts with one of the two namespaces is normalized like
    the rest of the label. *)
Theorem clean_name_strips_prefix (s : string) :
  clean_name ("report.header." ++ s) = clean_name s
  /\ clean_name ("report.debitur." ++ s) = clean_name s.
Proof.
  unfold clean_name, str_replace. split; simpl; reflexivity.
Qed.

(** ** Shape of the expanded tables *)

Lemma reindex_length (u src : list string) (r : list value) :
  length (reindex u src r) = length u.
Proof.
  unfold reindex. apply length_map.
Qed.

Lemma concat_well_formed (frames : list DataFrame) (r : DataFrame) :
  concat frames = Ok r -> well_formed r.
Proof.
  intros H. destruct (concat_ok _ _ H) as [_ [_ [Hd _]]].
  unfold well_formed. rewrite Hd. apply Forall_forall. intros row Hrow.
  apply in_flat_map in Hrow. destruct Hrow as [f [_ Hrow]].
  apply in_map_iff in Hrow. destruct Hrow as [r0 [<- _]].
  apply reindex_length.
Qed.

Lemma clean_columns_well_formed (df out : DataFrame) :
  clean_columns df = Ok out -> well_formed df -> well_formed out.
Proof.
  intros H W. destruct (clean_columns_ok _ _ H) as [_ ->].
  unfold well_formed in *. cbn [columns data]. rewrite length_map. exact W.
Qed.

(** Every table an expansion returns has one cell per column in each row,
    and one row per entry of the source list. *)
Theorem expansion_well_formed (df : DataFrame) (carry : list string)
  (sources : list nat) (out : DataFrame) :
  expansion df carry sources out ->
  well_formed out /\ nrows out = length sources.
Proof.
  intros [df' col carry' out' H | df' out' H].
  - split.
    + unfold extract_list_to_dataframe in H. inv_bind H.
      destruct a as [|f fs].
      * injection H as <-. constructor.
      * inv_bind H.
        eapply clean_columns_well_formed; [exact H|].
        eapply concat_well_formed; eauto.
    + destruct (expander_spec _ _ _ _ H) as [u [_ [_ [Ho _]]]].
      unfold nrows. symmetry. apply (Forall2_length Ho).
  - split.
    + unfold extract_facilities_history in H.
      inv_bind H. inv_bind H. inv_bind H. inv_bind H.
      eapply clean_columns_well_formed; [exact H|].
      eapply concat_well_formed; eauto.
    + destruct (reconciler_spec _ _ H) as [u [_ [_ Ho]]].
      unfold nrows. symmetry. apply (Forall2_length Ho).
Qed.

Lemma expansion_well_formed_witness :
  well_formed (mkDF ["a"; "fk"] [[VInt 1; VStr "r0"]; [VInt 2; VStr "r0"]])
  /\ nrows (mkDF ["a"; "fk"] [[VInt 1; VStr "r0"]; [VInt 2; VStr "r0"]])
     = length (owners two_row_table "items").
Proof.
  apply (expansion_well_formed two_row_table ["fk"]).
  apply (by_list_expander two_row_table "items" ["fk"]). reflexivity.
Defined.

(** ** The guarantor table and the tables of the first level *)



Lemma one_row_expansion (json_df out : DataFrame) (col : string)
  (carry : list string) :
  nrows json_df = 1 ->
  extract_list_to_dataframe json_df col carry = Ok out ->
  nrows out = array_len (array_cell json_df col 0).
Proof.
  intros N H. destruct (expander_rows _ _ _ _ H) as [Hn _].
  rewrite Hn, N. simpl. lia.
Qed.

(** For a one-row report record every table of the first level has one row
    per element of its array in the report. *)
Theorem first_level_row_counts (json_df : DataFrame) (t : tables) :
  extract_pefindo_data json_df = Ok t ->
  nrows json_df = 1 ->
  nrows (pefindo_scoring t) = array_len (array_cell json_df "scoring" 0)
  /\ nrows (pefindo_facilities t)
     = array_len (array_cell json_df "report.fasilitas" 0)
  /\ nrows (pefindo_inquiry t)
     = array_len (array_cell json_df "report.permintaan_data" 0)
  /\ nrows (pefindo_inquiry_summary t)
     = array_len (array_cell json_df "report.summary_permintaan_data" 0)
  /\ nrows (pefindo_information_history t)
     = array_len (array_cell json_df "report.riwayat_identitas_debitur" 0)
  /\ nrows (pefindo_collectibility_history t)
     = array_len (array_cell json_df "report.summary_riwayat_debitur" 0).
Proof.
  intros H N.
  destruct (pipeline_ok _ _ H)
    as [Hsc [Hfa [_ [_ [_ [Hin [Hins [Hih Hch]]]]]]]].
  split_all; eapply one_row_expansion; eauto.
Qed.

Lemma first_level_row_counts_witness :
  nrows (pefindo_scoring sample_tables)
  = array_len (array_cell sample_report "scoring" 0)
  /\ nrows (pefindo_facilities sample_tables)
     = array_len (array_cell sample_report "report.fasilitas" 0)
  /\ nrows (pefindo_inquiry sample_tables)
     = array_len (array_cell sample_report "report.permintaan_data" 0)
  /\ nrows (pefindo_inquiry_summary sample_tables)
     = array_len (array_cell sample_report "report.summary_permintaan_data" 0)
  /\ nrows (pefindo_information_history sample_tables)
     = array_len (array_cell sample_report "report.riwayat_identitas_debitur" 0)
  /\ nrows (pefindo_collectibility_history sample_tables)
     = array_len (array_cell sample_report "report.summary_riwayat_debitur" 0).
Proof.
  apply (first_level_row_counts sample_report sample_tables).
  - vm_compute. reflexivity.
  - reflexivity.
Defined.

(** ** The history table *)

Lemma history_rows_lift (df : DataFrame) (matching u : list string)
  (R : nat -> list string -> list value -> Prop) :
  (forall i src row, incl src u -> R i src row -> R i u (reindex u src row)) ->
  (forall i riwayat temp sub,
     cell df "riwayat_fasilitas" i = Ok riwayat -> truthy riwayat = true ->
     DataFrame_of riwayat = Ok temp ->
     add_columns df i cols_facilities temp = Ok sub ->
     Forall (R i (columns sub)) (data sub)) ->
  (forall i riwayat sub,
     cell df "riwayat_fasilitas" i = Ok riwayat -> truthy riwayat = false ->
     synthesize_row df i matching = Ok sub ->
     Forall (R i (columns sub)) (data sub)) ->
  forall rows subs,
    history_rows df matching rows = Ok subs ->
    (forall f, In f subs -> incl (columns f) u) ->
    Forall2 (fun i row => R i u row)
      (flat_map (fun i => repeat i (history_count df i)) rows)
      (flat_map (fun f => map (reindex u (columns f)) (data f)) subs).
Proof.
  intros Hre Htrue Hfalse.
  induction rows as [|i rows IH]; intros subs H Hu.
  - simpl in H. injection H as <-. constructor.
  - cbn [history_rows] in H. inv_bind H. rename a into riwayat.
    inv_bind H. rename a into sub.
    inv_bind H. rename a into rest. injection H as <-.
    cbn [flat_map]. unfold history_count at 1.
    cbv zeta. rewrite (array_cell_ok _ _ _ _ E).
    assert (Hs : incl (columns sub) u) by (apply Hu; left; reflexivity).
    apply Forall2_app.
    + destruct (truthy riwayat) eqn:T.
      * inv_bind E0. rename a into temp.
        destruct (sub_table_spec _ _ _ _ _ _ T E2 E0) as [_ [N _]].
        apply Forall2_repeat_map; [exact N|].
        eapply Forall_impl; [|exact (Htrue _ _ _ _ E T E2 E0)].
        intros row Hrow. apply Hre; assumption.
      * destruct (synthesize_row_spec _ _ _ _ E0) as [_ [N _]].
        apply Forall2_repeat_map; [exact N|].
        eapply Forall_impl; [|exact (Hfalse _ _ _ E T E0)].
        intros row Hrow. apply Hre; assumption.
    + apply IH; [exact E1|]. intros f Hf. apply Hu. right. exact Hf.
Qed.

Lemma history_rows_counts (df : DataFrame) (matching : list string) :
  forall rows subs,
    history_rows df matching rows = Ok subs ->
    Forall (fun i => 1 <= history_count df i) rows /\ length subs = length rows.
Proof.
  induction rows as [|i rows IH]; intros subs H.
  - simpl in H. injection H as <-. split; constructor.
  - cbn [history_rows] in H. inv_bind H. rename a into riwayat.
    inv_bind H. rename a into sub.
    inv_bind H. rename a into rest. injection H as <-.
    destruct (IH _ E1) as [IH1 IH2]. split; [|simpl; congruence].
    constructor; [|exact IH1].
    unfold history_count. cbv zeta. rewrite (array_cell_ok _ _ _ _ E).
    destruct (truthy riwayat) eqn:T; [|lia].
    inv_bind E0.
    destruct (DataFrame_of_truthy _ _ T E2) as [recs [-> _]].
    simpl in *. destruct recs; [discriminate | simpl; lia].
Qed.

Lemma list_sum_at_least (f : nat -> nat) (rows : list nat) :
  Forall (fun i => 1 <= f i) rows -> length rows <= list_sum (map f rows).
Proof.
  intros H. induction H as [|i rows Hi H IH]; simpl; lia.
Qed.

Lemma history_owners_count (df : DataFrame) :
  length (history_owners df)
  = list_sum (map (history_count df) (seq 0 (nrows df))).
Proof.
  unfold history_owners.
  change (length (flat_map (fun i => repeat i (history_count df i))
                    (seq 0 (nrows df)))
          = list_sum (map (history_count df) (seq 0 (nrows df)))).
  apply flat_map_repeat_length.
Qed.

(** When the reconciler returns, the facility table has at least one row
    and the history table has one row per snapshot of each facility, one
    row for a facility without history: no facility goes without a row. *)
Theorem history_row_counts (df out : DataFrame) :
  extract_facilities_history df = Ok out ->
  0 < nrows df
  /\ nrows out = list_sum (map (history_count df) (seq 0 (nrows df)))
  /\ nrows df <= nrows out
  /\ Forall (fun i => 1 <= history_count df i) (seq 0 (nrows df)).
Proof.
  intros H. destruct (reconciler_spec _ _ H) as [u [_ [_ Ho]]].
  unfold extract_facilities_history in H.
  inv_bind H. inv_bind H. inv_bind H. rename a1 into subs. inv_bind H.
  destruct (history_rows_counts _ _ _ _ E1) as [Hc Hl].
  destruct (concat_ok _ _ E2) as [Hne _].
  assert (Hn : nrows out = list_sum (map (history_count df) (seq 0 (nrows df)))).
  { unfold nrows at 1. rewrite <- (Forall2_length Ho). apply history_owners_count. }
  split_all.
  - rewrite length_seq in Hl. destruct subs; [congruence | simpl in Hl; lia].
  - exact Hn.
  - rewrite Hn. pose proof (list_sum_at_least _ _ Hc) as G.
    rewrite length_seq in G. exact G.
  - exact Hc.
Qed.

Lemma history_row_counts_witness :
  0 < nrows arrears_table
  /\ nrows arrears_history
     = list_sum (map (history_count arrears_table) (seq 0 (nrows arrears_table)))
  /\ nrows arrears_table <= nrows arrears_history
  /\ Forall (fun i => 1 <= history_count arrears_table i)
       (seq 0 (nrows arrears_table)).
Proof.
  apply (history_row_counts arrears_table arrears_history).
  vm_compute. reflexivity.
Defined.

Lemma synthesized_reindex (df : DataFrame) (u src : list string) (i : nat)
  (row : list value) :
  incl src u -> synthesized df src i row ->
  synthesized df u i (reindex u src row).
Proof.
  intros Hincl H T. destruct (H T) as [tv [b [H1 [H2 [H3 H4]]]]].
  exists tv, b. split_all; try assumption.
  - apply holds_reindex; [exact H3 | apply Hincl, H3].
  - apply holds_reindex; [exact H4 | apply Hincl, H4].
Qed.

(** When the reconciler returns, every row of the history table that stands
    for a facility without history holds snapshot order 1 and status 1 or 0
    as the facility's arrears are above zero or not; the arrears of such a
    facility are a number, a boolean or NaN. *)
Theorem synthesized_rows_in_history (df out : DataFrame) :
  extract_facilities_history df = Ok out ->
  exists u,
    NoDup u /\ columns out = map clean_name u
    /\ Forall2 (synthesized df u) (history_owners df) (data out).
Proof.
  unfold extract_facilities_history. intros H.
  inv_bind H. rename a into keys. inv_bind H. rename a into matching.
  inv_bind H. rename a into subs. inv_bind H. rename a into r.
  destruct (clean_columns_ok _ _ H) as [Hlab ->].
  destruct (concat_ok _ _ E2) as [_ [Hc [Hd _]]].
  exists (columns r). cbn [columns data]. rewrite Hd.
  split_all.
  - rewrite Hc. apply dedup_NoDup.
  - reflexivity.
  - apply (history_rows_lift df matching (columns r)
             (fun i cols row => synthesized df cols i row)
             (fun i src row => synthesized_reindex df (columns r) src i row)).
    + intros i riwayat temp sub Hcell T _ _. apply Forall_forall.
      intros row _ T'. rewrite (array_cell_ok _ _ _ _ Hcell) in T'. congruence.
    + intros i riwayat sub Hcell T Hs.
      destruct (synthesize_row_values _ _ _ _ Hs)
        as [row [tv [b [Hrow [H1 [H2 [H3 H4]]]]]]].
      rewrite Hrow. constructor; [|constructor].
      intros _. exists tv, b. auto.
    + exact E1.
    + intros f' Hf'. rewrite Hc. apply concat_columns_incl, Hf'.
Qed.

Lemma synthesized_rows_in_history_witness :
  exists u,
    NoDup u /\ columns arrears_history = map clean_name u
    /\ Forall2 (synthesized arrears_table u) (history_owners arrears_table)
         (data arrears_history).
Proof.
  apply (synthesized_rows_in_history arrears_table arrears_history).
  vm_compute. reflexivity.
Defined.

Lemma find_sample_keys_none (vals : list value) :
  Forall (fun v => truthy v = false) vals -> find_sample_keys vals = Ok None.
Proof.
  intros H. induction H as [|v vals Hv H IH]; simpl; [reflexivity|].
  rewrite Hv. exact IH.
Qed.

Lemma find_sample_keys_some (vals : list value) (ks : list string) :
  find_sample_keys vals = Ok (Some ks) ->
  exists v, In v vals /\ truthy v = true.
Proof.
  induction vals as [|v vals IH]; simpl; [discriminate|].
  destruct (truthy v) eqn:T.
  - intros _. exists v. auto.
  - intros H. destruct (IH H) as [w [Hw Tw]]. exists w. auto.
Qed.

Lemma array_cell_row (df : DataFrame) (col : string) (i : nat) (r : list value) :
  occurrences col (columns df) = 1 -> nth_error (data df) i = Some r ->
  array_cell df col i = get (columns df) r col.
Proof.
  intros Ho Hr. unfold array_cell, cell. rewrite Ho, Hr. reflexivity.
Qed.

(** A facility table in which no facility has a non-empty history makes the
    reconciler raise TypeError, whatever else the table holds. *)
Theorem reconciler_needs_history (df : DataFrame) :
  occurrences "riwayat_fasilitas" (columns df) = 1 ->
  (forall i, i < nrows df ->
     truthy (array_cell df "riwayat_fasilitas" i) = false) ->
  extract_facilities_history df = Raise TypeError.
Proof.
  intros Ho Hf. unfold extract_facilities_history, sample_keys. rewrite Ho.
  rewrite find_sample_keys_none.
  - cbn [bind matching_cols]. apply occurrences_In in Ho.
    destruct (columns df) as [|c cols]; [contradiction | reflexivity].
  - apply Forall_forall. intros v Hv. apply in_map_iff in Hv.
    destruct Hv as [r [<- Hr]]. apply In_nth_error in Hr. destruct Hr as [i Hi].
    rewrite <- (array_cell_row _ _ _ _ Ho Hi). apply Hf.
    unfold nrows. apply nth_error_Some. congruence.
Qed.

Lemma reconciler_needs_history_witness :
  extract_facilities_history lone_facility_table = Raise TypeError.
Proof.
  apply (reconciler_needs_history lone_facility_table).
  - reflexivity.
  - intros [|i] Hi; [reflexivity|].
    unfold nrows, lone_facility_table in Hi. simpl in Hi. lia.
Defined.

Lemma reconciler_has_history (df out : DataFrame) :
  extract_facilities_history df = Ok out ->
  exists i, i < nrows df
            /\ truthy (array_cell df "riwayat_fasilitas" i) = true.
Proof.
  unfold extract_facilities_history. intros H.
  inv_bind H. rename a into keys. inv_bind H. rename a into matching.
  unfold sample_keys in E.
  destruct (occurrences "riwayat_fasilitas" (columns df)) as [|[|n]] eqn:Ho;
    try discriminate.
  destruct keys as [ks|].
  - destruct (find_sample_keys_some _ _ E) as [v [Hv T]].
    apply in_map_iff in Hv. destruct Hv as [r [<- Hr]].
    apply In_nth_error in Hr. destruct Hr as [i Hi]. exists i. split.
    + unfold nrows. apply nth_error_Some. congruence.
    + rewrite (array_cell_row _ _ _ _ Ho Hi). exact T.
  - apply occurrences_In in Ho. simpl in E0.
    destruct (columns df); [contradiction | discriminate].
Qed.

(** [extract_pefindo_data] returns its tables only for a report with at
    least one facility of which some facility has a non-empty history. *)
Theorem extraction_needs_facility_history (json_df : DataFrame) (t : tables) :
  extract_pefindo_data json_df = Ok t ->
  0 < nrows (pefindo_facilities t)
  /\ exists i, i < nrows (pefindo_facilities t)
       /\ truthy (array_cell (pefindo_facilities t) "riwayat_fasilitas" i) = true.
Proof.
  intros H. destruct (pipeline_ok _ _ H) as [_ [_ [Hh _]]].
  destruct (reconciler_has_history _ _ Hh) as [i [Hi T]].
  split; [lia | exists i; auto].
Qed.

Lemma extraction_needs_facility_history_witness :
  0 < nrows (pefindo_facilities sample_tables)
  /\ exists i, i < nrows (pefindo_facilities sample_tables)
       /\ truthy (array_cell (pefindo_facilities sample_tables)
                    "riwayat_fasilitas" i) = true.
Proof.
  apply (extraction_needs_facility_history sample_report sample_tables).
  vm_compute. reflexivity.
Defined.

(** ** More on the List Expander *)

Lemma expand_rows_skip (df : DataFrame) (col : string) (carry : list string)
  (pre post : list nat) :
  Forall (fun k => exists w, cell df col k = Ok w /\ truthy w = false) pre ->
  expand_rows df col carry (pre ++ post) = expand_rows df col carry post.
Proof.
  intros H. induction H as [|k pre [w [Hw T]] H IH]; [reflexivity|].
  cbn [app expand_rows]. rewrite Hw. cbn [bind]. rewrite T. exact IH.
Qed.

(** The first row whose array cell is true but is a scalar (NaN for a
    missing key, a number, a string, [True]) makes the List Expander raise
    ValueError. *)
Theorem scalar_array_cell_raises (df : DataFrame) (col : string)
  (carry : list string) (i : nat) (v : value) :
  (forall k, k < i -> exists w, cell df col k = Ok w /\ truthy w = false) ->
  cell df col i = Ok v -> truthy v = true -> is_scalar v = true ->
  extract_list_to_dataframe df col carry = Raise ValueError.
Proof.
  intros Hpre Hv T Hsc.
  assert (Hi : i < nrows df).
  { destruct (cell_ok_unique _ _ _ _ Hv) as [_ [r [Hr _]]].
    unfold nrows. apply nth_error_Some. congruence. }
  unfold extract_list_to_dataframe.
  replace (nrows df) with (i + S (nrows df - S i)) by lia.
  rewrite seq_app, expand_rows_skip.
  - cbn [seq expand_rows plus]. rewrite Hv. cbn [bind]. rewrite T.
    destruct v; simpl in *; try discriminate; reflexivity.
  - apply Forall_forall. intros k Hk. apply in_seq in Hk. apply Hpre. lia.
Qed.

Lemma scalar_array_cell_raises_witness :
  extract_list_to_dataframe missing_array_table "agunan" ["fk"]
  = Raise ValueError.
Proof.
  apply (scalar_array_cell_raises missing_array_table "agunan" ["fk"] 1 VNaN).
  - intros [|k] Hk; [|lia]. exists (VList []). split; reflexivity.
  - reflexivity.
  - reflexivity.
  - reflexivity.
Defined.

Lemma expand_rows_lift (df : DataFrame) (col : string) (carry u : list string)
  (P : value -> list string -> list value -> Prop) :
  (forall e src row, incl src u -> P e src row -> P e u (reindex u src row)) ->
  (forall i item temp sub,
     cell df col i = Ok item -> truthy item = true ->
     DataFrame_of item = Ok temp -> add_columns df i carry temp = Ok sub ->
     Forall2 (fun e row => P e (columns sub) row) (elements_of item) (data sub)) ->
  forall rows subs,
    expand_rows df col carry rows = Ok subs ->
    (forall f, In f subs -> incl (columns f) u) ->
    Forall2 (fun e row => P e u row)
      (flat_map (fun i => elements_of (array_cell df col i)) rows)
      (flat_map (fun f => map (reindex u (columns f)) (data f)) subs).
Proof.
  intros Hre Hsub. induction rows as [|i rows IH]; intros subs H Hu.
  - simpl in H. injection H as <-. constructor.
  - cbn [expand_rows] in H. inv_bind H. rename a into item.
    cbn [flat_map]. rewrite (array_cell_ok _ _ _ _ E).
    destruct (truthy item) eqn:T.
    + inv_bind H. rename a into temp. inv_bind H. rename a into sub.
      inv_bind H. rename a into rest. injection H as <-.
      assert (Hs : incl (columns sub) u) by (apply Hu; left; reflexivity).
      cbn [flat_map]. apply Forall2_app.
      * apply Forall2_map_r.
        eapply Forall2_weaken; [|exact (Hsub _ _ _ _ E T E0 E1)].
        intros e row He. cbn beta in *. apply Hre; assumption.
      * apply IH; [exact E2|]. intros f Hf. apply Hu. right. exact Hf.
    + destruct (falsy_array _ T) as [_ ->]. simpl. apply IH; assumption.
Qed.

Lemma fills_missing_reindex (carry u src : list string) (e : value)
  (row : list value) :
  incl src u -> fills_missing carry src e row ->
  fills_missing carry u e (reindex u src row).
Proof.
  intros _ [d [-> H]]. exists d. split; [reflexivity|].
  intros k Hk Hn Hu. unfold reindex.
  rewrite nth_error_map, (index_of_nth_error _ _ Hu). cbn. f_equal.
  destruct (mem k src) eqn:M; [|reflexivity].
  apply mem_In in M. unfold get. apply nth_error_nth, H; assumption.
Qed.

Lemma frame_of_records_missing (recs : list record) :
  Forall2 (fun d row => forall k, assoc k d = None ->
             In k (columns (frame_of_records recs)) ->
             holds (columns (frame_of_records recs)) row k VNaN)
    recs (data (frame_of_records recs)).
Proof.
  unfold frame_of_records. cbn [columns data].
  apply Forall2_map_in. intros d Hd k Hk Hin.
  pose proof (holds_map _
    (fun c => stored (column_storage (map (field c) recs)) (field c d))
    k Hin) as H.
  assert (F : field k d = VNaN) by (unfold field; rewrite Hk; reflexivity).
  cbn beta in H. rewrite F, stored_nan in H. exact H.
Qed.

Lemma sub_table_missing (df : DataFrame) (carry : list string) (i : nat)
  (item : value) (temp sub : DataFrame) :
  truthy item = true -> DataFrame_of item = Ok temp ->
  add_columns df i carry temp = Ok sub ->
  Forall2 (fills_missing carry (columns sub)) (elements_of item) (data sub).
Proof.
  intros T HD HA.
  destruct (DataFrame_of_truthy _ _ T HD) as [recs [-> ->]].
  destruct (add_columns_spec df i carry _ _ HA (frame_of_records_well_formed recs))
    as [W [_ [Keep [Back [_ [_ Rows]]]]]].
  simpl. apply Forall2_map_l.
  eapply Forall2_compose;
    [apply frame_of_records_missing | apply (Forall2_and_r _ _ _ _ Rows W) |].
  intros d row row' Hd [Hr Hl]. exists d. split; [reflexivity|].
  intros k Hk Hn Hin. cbn beta in *.
  destruct (Back k Hin) as [Hc|Ht]; [contradiction|].
  assert (Hg : get (columns sub) row' k = VNaN).
  { rewrite (Hr k Hn Ht). apply holds_value, Hd; assumption. }
  apply (holds_get _ _ _ _ Hin Hl Hg).
Qed.

(** When the List Expander returns, an output row holds NaN under every
    label, other than a carry label, that is no key of its own element (a
    key that only other elements have). *)
Theorem missing_keys_become_nan (df : DataFrame) (col : string)
  (carry : list string) (out : DataFrame) :
  extract_list_to_dataframe df col carry = Ok out ->
  exists u,
    NoDup u /\ columns out = map clean_name u
    /\ Forall2 (fills_missing carry u) (all_elements df col) (data out).
Proof.
  unfold extract_list_to_dataframe. intros H. inv_bind H. rename a into subs.
  destruct subs as [|f fs].
  - injection H as <-. exists []. split_all; try constructor.
    apply (expand_rows_lift df col carry [] (fun e cols row => fills_missing carry cols e row)
             (fun e src row => fills_missing_reindex carry [] src e row)
             (fun i item temp sub _ T HD HA => sub_table_missing df carry i item temp sub T HD HA)
             _ _ E).
    intros f [].
  - inv_bind H. rename a into r. destruct (clean_columns_ok _ _ H) as [Hlab ->].
    destruct (concat_ok _ _ E0) as [_ [Hc [Hd _]]].
    exists (columns r). cbn [columns data]. rewrite Hd.
    split_all.
    + rewrite Hc. apply dedup_NoDup.
    + reflexivity.
    + apply (expand_rows_lift df col carry (columns r)
               (fun e cols row => fills_missing carry cols e row)
               (fun e src row => fills_missing_reindex carry (columns r) src e row)
               (fun i item temp sub _ T HD HA => sub_table_missing df carry i item temp sub T HD HA)
               _ _ E).
      intros f' Hf'. rewrite Hc. apply concat_columns_incl, Hf'.
Qed.

Lemma missing_keys_become_nan_witness :
  exists u,
    NoDup u /\ columns ragged_expansion = map clean_name u
    /\ Forall2 (fills_missing ["fk"] u) (all_elements ragged_table "items")
         (data ragged_expansion).
Proof.
  apply (missing_keys_become_nan ragged_table "items" ["fk"] ragged_expansion).
  vm_compute. reflexivity.
Defined.

Lemma expand_rows_labels (df : DataFrame) (col : string) (carry : list string) :
  forall rows subs,
    expand_rows df col carry rows = Ok subs ->
    forall c, In c (flat_map columns subs) <->
      (In c carry
       /\ flat_map (fun i => repeat i (array_len (array_cell df col i))) rows <> [])
      \/ exists d,
           In (VDict d) (flat_map (fun i => elements_of (array_cell df col i)) rows)
           /\ In c (map fst d).
Proof.
  induction rows as [|i rows IH]; intros subs H c.
  - simpl in H. injection H as <-. simpl. split; [contradiction|].
    intros [[_ Hn]|[d [[] _]]]. congruence.
  - cbn [expand_rows] in H. inv_bind H. rename a into item.
    cbn [flat_map]. rewrite (array_cell_ok _ _ _ _ E).
    destruct (truthy item) eqn:T.
    + inv_bind H. rename a into temp. inv_bind H. rename a into sub.
      inv_bind H. rename a into rest. injection H as <-.
      destruct (sub_table_labels _ _ _ _ _ _ T E0 E1) as [Hlen Hsub].
      cbn [flat_map]. rewrite in_app_iff, Hsub, (IH _ E2 c). split.
      * intros [[Hc|[d [Hd Hk]]]|[[Hc _]|[d [Hd Hk]]]].
        -- left. split; [exact Hc|]. destruct (array_len item); [congruence | discriminate].
        -- right. exists d. split; [apply in_or_app; left; exact Hd | exact Hk].
        -- left. split; [exact Hc|]. destruct (array_len item); [congruence | discriminate].
        -- right. exists d. split; [apply in_or_app; right; exact Hd | exact Hk].
      * intros [[Hc _]|[d [Hd Hk]]].
        -- left. left. exact Hc.
        -- apply in_app_or in Hd. destruct Hd as [Hd|Hd].
           ++ left. right. exists d. auto.
           ++ right. right. exists d. auto.
    + destruct (falsy_array _ T) as [-> ->]. simpl. apply IH, H.
Qed.

(** When the List Expander returns, the labels of its table, before
    cleaning, occur once each and are exactly the keys of the array elements
    together with, if there is any row, the carry labels. *)
Theorem expander_labels (df : DataFrame) (col : string) (carry : list string)
  (out : DataFrame) :
  extract_list_to_dataframe df col carry = Ok out ->
  exists u,
    NoDup u /\ columns out = map clean_name u
    /\ forall c, In c u <->
         (In c carry /\ owners df col <> [])
         \/ exists d, In (VDict d) (all_elements df col) /\ In c (map fst d).
Proof.
  unfold extract_list_to_dataframe. intros H. inv_bind H. rename a into subs.
  pose proof (expand_rows_labels _ _ _ _ _ E) as Hl.
  destruct subs as [|f fs].
  - injection H as <-. exists []. split_all; [constructor | reflexivity |].
    intros c. apply (Hl c).
  - inv_bind H. rename a into r. destruct (clean_columns_ok _ _ H) as [Hlab ->].
    destruct (concat_ok _ _ E0) as [_ [Hc _]].
    exists (columns r). cbn [columns]. split_all.
    + rewrite Hc. apply dedup_NoDup.
    + reflexivity.
    + intros c. rewrite Hc, dedup_In. apply (Hl c).
Qed.

Lemma expander_labels_witness :
  exists u,
    NoDup u /\ columns ragged_expansion = map clean_name u
    /\ forall c, In c u <->
         (In c ["fk"] /\ owners ragged_table "items" <> [])
         \/ exists d, In (VDict d) (all_elements ragged_table "items")
                      /\ In c (map fst d).
Proof.
  apply (expander_labels ragged_table "items" ["fk"] ragged_expansion).
  vm_compute. reflexivity.
Defined.

(** ** The information summary *)

Lemma unique_labels_true_NoDup (cols : list string) :
  unique_labels cols = true -> NoDup cols.
Proof.
  unfold unique_labels. intros H.
  apply (proj2 (NoDup_count_occ' string_dec cols)). intros c Hc.
  rewrite forallb_forall in H. apply Nat.eqb_eq, H, Hc.
Qed.

Lemma select_columns_ok (df : DataFrame) (labels : list string)
  (selected : DataFrame) :
  select_columns df labels = Ok selected ->
  NoDup (columns df)
  /\ (forall c, In c labels -> occurrences c (columns df) = 1)
  /\ selected
     = mkDF labels (map (fun r => map (get (columns df) r) labels) (data df)).
Proof.
  unfold select_columns.
  destruct (existsb (fun c => Nat.eqb (occurrences c (columns df)) 0) labels) eqn:E;
    [discriminate|].
  destruct (unique_labels (columns df)) eqn:U; [|discriminate].
  intros H. injection H as <-. split_all; [|  | reflexivity].
  - apply unique_labels_true_NoDup, U.
  - intros c Hc.
    assert (N : occurrences c (columns df) <> 0).
    { intros N. assert (X : existsb (fun c => Nat.eqb (occurrences c (columns df)) 0) labels = true).
      { apply existsb_exists. exists c. split; [exact Hc | apply Nat.eqb_eq, N]. }
      congruence. }
    unfold unique_labels in U. rewrite forallb_forall in U.
    apply Nat.eqb_eq, U. apply (count_occ_In string_dec).
    unfold occurrences in N. lia.
Qed.

(** When the information summary is returned, the report record has unique
    labels among which the three header labels, and the summary has the
    rows of the report record, the selected labels cleaned, and in each row
    the report's value under each selected label. *)
Theorem information_summary_shape (json_df out : DataFrame) :
  information_summary json_df = Ok out ->
  NoDup (columns json_df)
  /\ (forall c, In c ["report.header.username"; "report.header.id_report";
                      "report.header.tgl_permintaan"] ->
        occurrences c (columns json_df) = 1)
  /\ nrows out = nrows json_df
  /\ columns out = map clean_name (debitur_cols json_df)
  /\ Forall2 (fun r r' => forall c, In c (debitur_cols json_df) ->
                holds (debitur_cols json_df) r' c (get (columns json_df) r c))
       (data json_df) (data out).
Proof.
  unfold information_summary. intros H. inv_bind H. rename a into selected.
  destruct (clean_columns_ok _ _ H) as [_ ->].
  destruct (select_columns_ok _ _ _ E) as [Hn [Hl ->]].
  cbn [columns data]. split_all.
  - exact Hn.
  - intros c Hc. apply Hl. unfold debitur_cols. apply in_or_app. right. exact Hc.
  - unfold nrows. cbn [data]. apply length_map.
  - reflexivity.
  - apply Forall2_map_in. intros r _ c Hc.
    apply (holds_map (debitur_cols json_df) (get (columns json_df) r) c Hc).
Qed.

Lemma information_summary_shape_witness :
  NoDup (columns sample_report)
  /\ (forall c, In c ["report.header.username"; "report.header.id_report";
                      "report.header.tgl_permintaan"] ->
        occurrences c (columns sample_report) = 1)
  /\ nrows (pefindo_information_summary sample_tables) = nrows sample_report
  /\ columns (pefindo_information_summary sample_tables)
     = map clean_name (debitur_cols sample_report)
  /\ Forall2 (fun r r' => forall c, In c (debitur_cols sample_report) ->
                holds (debitur_cols sample_report) r' c
                  (get (columns sample_report) r c))
       (data sample_report) (data (pefindo_information_summary sample_tables)).
Proof.
  apply (information_summary_shape sample_report
           (pefindo_information_summary sample_tables)).
  vm_compute. reflexivity.
Defined.

(** A report record that lacks one of the three header labels makes the
    information summary raise KeyError, and [extract_pefindo_data] returns
    no tables for it. *)
Theorem summary_needs_header_columns (json_df : DataFrame) (c : string) :
  In c ["report.header.username"; "report.header.id_report";
        "report.header.tgl_permintaan"] ->
  occurrences c (columns json_df) = 0 ->
  information_summary json_df = Raise KeyError
  /\ forall t, extract_pefindo_data json_df <> Ok t.
Proof.
  intros Hc H0.
  assert (Hs : information_summary json_df = Raise KeyError).
  { unfold information_summary, select_columns.
    assert (X : existsb (fun c => Nat.eqb (occurrences c (columns json_df)) 0)
                  (debitur_cols json_df) = true).
    { apply existsb_exists. exists c. split; [|apply Nat.eqb_eq, H0].
      unfold debitur_cols. apply in_or_app. right. exact Hc. }
    rewrite X. reflexivity. }
  split; [exact Hs|]. intros t H.
  unfold extract_pefindo_data in H. inv_bind H. rewrite Hs in H. discriminate.
Qed.

Lemma summary_needs_header_columns_witness :
  information_summary two_row_table = Raise KeyError
  /\ forall t, extract_pefindo_data two_row_table <> Ok t.
Proof.
  apply (summary_needs_header_columns two_row_table "report.header.id_report").
  - simpl. tauto.
  - reflexivity.
Defined.

(** In the store, building the information summary allocates a new table
    and renames that one: the report record keeps its labels, every table
    of the store is as before, and the new table is the summary. *)
Theorem information_summary_keeps_report (r r' : ref) (h h' : store)
  (df : DataFrame) :
  nth_error h r = Some df ->
  information_summary_in_store r h = Ok (r', h') ->
  r' <> r
  /\ nth_error h' r = Some df
  /\ (forall k, k < length h -> nth_error h' k = nth_error h k)
  /\ exists out, information_summary df = Ok out /\ nth_error h' r' = Some out.
Proof.
  intros Hr H. unfold information_summary_in_store in H. rewrite Hr in H.
  inv_bind H. rename a into selected.
  unfold alloc, clean_column_names in H. cbn [fst snd] in H.
  assert (Hnew : nth_error (h ++ [selected]) (length h) = Some selected).
  { rewrite nth_error_app2 by lia. rewrite Nat.sub_diag. reflexivity. }
  rewrite Hnew in H. inv_bind H. rename a into out. injection H as <- <-.
  assert (Hlt : r < length h) by (apply nth_error_Some; congruence).
  assert (Hold : forall k, k < length h ->
            nth_error (update (h ++ [selected]) (length h) out) k
            = nth_error h k).
  { intros k Hk. rewrite nth_error_update_other by lia.
    apply nth_error_app1, Hk. }
  split_all.
  - lia.
  - rewrite Hold by exact Hlt. exact Hr.
  - exact Hold.
  - exists out. split.
    + unfold information_summary. rewrite E. exact E0.
    + apply (nth_error_update_same _ _ selected), Hnew.
Qed.

Lemma information_summary_keeps_report_witness :
  1 <> 0
  /\ nth_error [sample_report; pefindo_information_summary sample_tables] 0
     = Some sample_report
  /\ (forall k, k < length [sample_report] ->
        nth_error [sample_report; pefindo_information_summary sample_tables] k
        = nth_error [sample_report] k)
  /\ exists out,
       information_summary sample_report = Ok out
       /\ nth_error [sample_report; pefindo_information_summary sample_tables] 1
          = Some out.
Proof.
  apply (information_summary_keeps_report 0 1 [sample_report]
           [sample_report; pefindo_information_summary sample_tables]
           sample_report).
  - reflexivity.
  - vm_compute. reflexivity.
Defined.

(** ** The loader *)

Lemma normalise_json_leaves :
  forall (v : value) (ks : string),
    Forall (fun kv => is_dict (snd kv) = false) (normalise_json ks v).
Proof.
  fix IH 1. intros v ks. destruct v as [| | b | z | s | l | d]; simpl;
    try (constructor; [reflexivity | constructor]).
  induction d as [|[k x] d IHd]; [constructor|].
  apply Forall_app. split; [apply IH | exact IHd].
Qed.

Lemma dict_set_leaves (k : string) (v : value) (d : record) :
  is_dict v = false ->
  Forall (fun kv => is_dict (snd kv) = false) d ->
  Forall (fun kv => is_dict (snd kv) = false) (dict_set k v d).
Proof.
  intros Hv H. induction H as [|[k' v'] d Hk H IH]; simpl.
  - constructor; [exact Hv | constructor].
  - destruct (String.eqb k' k); constructor; auto.
Qed.

Lemma dict_update_leaves (items : list (string * value)) :
  forall d,
    Forall (fun kv => is_dict (snd kv) = false) items ->
    Forall (fun kv => is_dict (snd kv) = false) d ->
    Forall (fun kv => is_dict (snd kv) = false) (dict_update d items).
Proof.
  unfold dict_update. induction items as [|[k v] items IH]; intros d Hi Hd;
    simpl; [exact Hd|].
  inversion Hi; subst. apply IH; [assumption|].
  apply dict_set_leaves; assumption.
Qed.

Lemma normalise_json_ordered_leaves (d : record) :
  Forall (fun kv => is_dict (snd kv) = false) (normalise_json_ordered d).
Proof.
  unfold normalise_json_ordered. apply dict_update_leaves.
  - apply normalise_json_leaves.
  - apply dict_update_leaves; [|constructor].
    apply Forall_forall. intros kv Hkv. apply filter_In in Hkv.
    destruct Hkv as [_ Hkv]. apply negb_true_iff, Hkv.
Qed.

Lemma assoc_In (k : string) (d : record) (v : value) :
  assoc k d = Some v -> In (k, v) d.
Proof.
  induction d as [|[k' v'] d IH]; simpl; [discriminate|].
  destruct (String.eqb k' k) eqn:E.
  - apply String.eqb_eq in E. intros H. injection H as <-. subst. left. reflexivity.
  - intros H. right. apply IH, H.
Qed.

Lemma field_leaf (c : string) (d : record) :
  Forall (fun kv => is_dict (snd kv) = false) d -> is_dict (field c d) = false.
Proof.
  intros H. unfold field. destruct (assoc c d) as [v|] eqn:E; [|reflexivity].
  apply assoc_In in E. rewrite Forall_forall in H. apply (H (c, v) E).
Qed.

Lemma stored_leaf (st : storage) (v : value) :
  is_dict v = false -> is_dict (stored st v) = false.
Proof.
  destruct st, v; simpl; try discriminate; reflexivity.
Qed.

Lemma stored_alone (v : value) : stored (column_storage [v]) v = v.
Proof.
  destruct v; reflexivity.
Qed.

(** The loaded record of a mapping is one well-formed row under labels that
    occur once each, and none of its cells is a mapping: every nested
    mapping has been flattened. *)
Theorem loaded_record_is_flat (d : record) :
  exists df,
    json_normalize (VDict d) = Ok df
    /\ nrows df = 1
    /\ NoDup (columns df)
    /\ well_formed df
    /\ Forall (Forall (fun v => is_dict v = false)) (data df).
Proof.
  exists (frame_of_records [normalise_json_ordered d]). split_all.
  - reflexivity.
  - reflexivity.
  - apply dedup_NoDup.
  - apply frame_of_records_well_formed.
  - unfold frame_of_records. cbn [data map]. constructor; [|constructor].
    apply Forall_forall. intros v Hv. apply in_map_iff in Hv.
    destruct Hv as [c [<- _]].
    apply stored_leaf, field_leaf, normalise_json_ordered_leaves.
Qed.

Lemma normalise_json_entry (ks k : string) (d : record) (x : value) :
  assoc k d = Some x ->
  incl (normalise_json (new_key ks k) x) (normalise_json ks (VDict d)).
Proof.
  induction d as [|[k' x'] d IH]; simpl; [discriminate|].
  destruct (String.eqb k' k) eqn:E.
  - apply String.eqb_eq in E. subst k'. intros H. injection H as ->.
    intros kv Hkv. apply in_or_app. left. exact Hkv.
  - intros H kv Hkv. apply in_or_app. right. apply (IH H kv Hkv).
Qed.

Lemma normalise_json_path (path : list string) :
  forall (ks : string) (v0 v : value),
    lookup_path path v0 = Some v -> is_dict v = false ->
    In (fold_left new_key path ks, v) (normalise_json ks v0).
Proof.
  induction path as [|k path IH]; intros ks v0 v H L.
  - simpl in H. injection H as ->. destruct v; simpl in *;
      try discriminate; left; reflexivity.
  - cbn [lookup_path] in H. destruct v0; try discriminate.
    destruct (assoc k d) as [x|] eqn:E; [|discriminate].
    cbn [fold_left].
    apply (normalise_json_entry ks k d x E). apply IH; assumption.
Qed.

Lemma assoc_filter (f : string * value -> bool) (k : string) (d : record)
  (x : value) :
  assoc k d = Some x -> f (k, x) = true -> assoc k (filter f d) = Some x.
Proof.
  induction d as [|[k' x'] d IH]; simpl; [discriminate|].
  destruct (String.eqb k' k) eqn:E.
  - apply String.eqb_eq in E. subst k'. intros H. injection H as ->.
    intros Hf. rewrite Hf. simpl. rewrite String.eqb_refl. reflexivity.
  - intros H Hf. destruct (f (k', x')); [simpl; rewrite E|]; apply IH; assumption.
Qed.

Lemma dict_set_fresh (k : string) (v : value) (d : record) :
  ~ In k (map fst d) -> dict_set k v d = d ++ [(k, v)].
Proof.
  induction d as [|[k' v'] d IH]; simpl; intros H; [reflexivity|].
  destruct (String.eqb k' k) eqn:E.
  - apply String.eqb_eq in E. subst. exfalso. apply H. left. reflexivity.
  - f_equal. apply IH. intros Hin. apply H. right. exact Hin.
Qed.

Lemma dict_update_fresh (items : list (string * value)) :
  forall d, NoDup (map fst (d ++ items)) -> dict_update d items = d ++ items.
Proof.
  unfold dict_update. induction items as [|[k v] items IH]; intros d H; simpl.
  - rewrite app_nil_r. reflexivity.
  - rewrite dict_set_fresh.
    + rewrite IH; rewrite <- app_assoc; [reflexivity | exact H].
    + rewrite map_app in H. simpl in H. apply NoDup_remove_2 in H.
      intros Hin. apply H. apply in_or_app. left. exact Hin.
Qed.

Lemma assoc_NoDup_In (k : string) (v : value) (d : record) :
  NoDup (map fst d) -> In (k, v) d -> assoc k d = Some v.
Proof.
  induction d as [|[k' v'] d IH]; simpl; intros Hn Hin; [contradiction|].
  inversion Hn as [|? ? Hk Hn']; subst.
  destruct Hin as [Hin|Hin].
  - injection Hin as -> ->. rewrite String.eqb_refl. reflexivity.
  - destruct (String.eqb k' k) eqn:E.
    + apply String.eqb_eq in E. subst. exfalso. apply Hk.
      apply (in_map fst) in Hin. exact Hin.
    + apply IH; assumption.
Qed.

Lemma normalise_json_ordered_distinct (d : record) :
  NoDup (flat_keys d) ->
  normalise_json_ordered d
  = filter (fun kv => negb (is_dict (snd kv))) d
    ++ normalise_json "" (VDict (filter (fun kv => is_dict (snd kv)) d)).
Proof.
  unfold flat_keys, normalise_json_ordered. intros H.
  rewrite (dict_update_fresh _ []).
  - cbn [app]. apply dict_update_fresh, H.
  - cbn [app]. rewrite map_app in H. apply NoDup_app_remove_r in H. exact H.
Qed.

Lemma flat_entry (d : record) (path : list string) (v : value) :
  path <> [] -> lookup_path path (VDict d) = Some v -> is_dict v = false ->
  In (label_of path, v)
     (filter (fun kv => negb (is_dict (snd kv))) d
      ++ normalise_json "" (VDict (filter (fun kv => is_dict (snd kv)) d))).
Proof.
  intros Hp H L. destruct path as [|k path]; [congruence|].
  cbn [lookup_path] in H. destruct (assoc k d) as [x|] eqn:E; [|discriminate].
  apply in_or_app. destruct (is_dict x) eqn:X.
  - right. unfold label_of.
    apply normalise_json_path; [|exact L].
    cbn [lookup_path].
    rewrite (assoc_filter (fun kv => is_dict (snd kv)) k d x E X). exact H.
  - left. destruct path as [|k' path].
    + simpl in H. injection H as ->. unfold label_of. simpl.
      apply filter_In. split; [apply assoc_In, E|]. simpl. rewrite X. reflexivity.
    + destruct x; simpl in *; discriminate.
Qed.

(** In a document whose flattened keys are all distinct, the value found by
    following a path of keys to something that is not a mapping (a scalar
    or an array) is the cell of the loaded record under the dotted label of
    the path. *)
Theorem loaded_leaf_under_dotted_label (d : record) (path : list string)
  (v : value) :
  NoDup (flat_keys d) ->
  path <> [] ->
  lookup_path path (VDict d) = Some v ->
  is_dict v = false ->
  exists df,
    json_normalize (VDict d) = Ok df /\ cell df (label_of path) 0 = Ok v.
Proof.
  intros Hn Hp H L.
  exists (frame_of_records [normalise_json_ordered d]).
  split; [reflexivity|].
  pose proof (flat_entry d path v Hp H L) as Hin.
  rewrite <- (normalise_json_ordered_distinct d Hn) in Hin.
  assert (Hk : NoDup (map fst (normalise_json_ordered d))).
  { rewrite (normalise_json_ordered_distinct d Hn). exact Hn. }
  pose proof (assoc_NoDup_In _ _ _ Hk Hin) as Ha.
  assert (Hc : In (label_of path)
                 (columns (frame_of_records [normalise_json_ordered d]))).
  { unfold frame_of_records. cbn [columns flat_map]. rewrite app_nil_r.
    apply dedup_In. apply (in_map fst) in Hin. exact Hin. }
  unfold cell.
  assert (Ho : occurrences (label_of path)
                 (columns (frame_of_records [normalise_json_ordered d])) = 1).
  { unfold occurrences. apply (proj1 (NoDup_count_occ' string_dec _)); [|exact Hc].
    apply dedup_NoDup. }
  rewrite Ho. unfold frame_of_records in *. cbn [columns data map nth_error] in *.
  f_equal.
  pose proof (holds_map _
    (fun c => stored
                (column_storage [field c (normalise_json_ordered d)])
                (field c (normalise_json_ordered d)))
    (label_of path) Hc) as Hh.
  apply holds_value in Hh. rewrite Hh. cbn beta.
  assert (F : field (label_of path) (normalise_json_ordered d) = v)
    by (unfold field; rewrite Ha; reflexivity).
  rewrite F. apply stored_alone.
Qed.

Lemma loaded_leaf_under_dotted_label_witness :
  exists df,
    json_normalize (VDict sample_document) = Ok df
    /\ cell df (label_of ["report"; "debitur"; "npwp"]) 0 = Ok VNone.
Proof.
  apply (loaded_leaf_under_dotted_label sample_document
           ["report"; "debitur"; "npwp"] VNone).
  - apply unique_labels_true_NoDup. reflexivity.
  - discriminate.
  - reflexivity.
  - reflexivity.
Defined.

(** ** What a returned extraction guarantees about the facilities table *)

Lemma expand_rows_reads_array (df : DataFrame) (col : string)
  (carry : list string) :
  forall rows subs,
    expand_rows df col carry rows = Ok subs ->
    forall i, In i rows -> exists v, cell df col i = Ok v.
Proof.
  induction rows as [|k rows IH]; intros subs H i Hi; [contradiction|].
  cbn [expand_rows] in H. inv_bind H. rename a into item.
  destruct Hi as [->|Hi]; [exists item; exact E|].
  destruct (truthy item).
  - inv_bind H. inv_bind H. inv_bind H. eapply IH; eauto.
  - eapply IH; eauto.
Qed.

Lemma history_rows_reads (df : DataFrame) (matching : list string) :
  forall rows subs,
    history_rows df matching rows = Ok subs ->
    forall i c, In i rows -> In c cols_facilities ->
      exists w, cell df c i = Ok w.
Proof.
  induction rows as [|k rows IH]; intros subs H i c Hi Hc; [contradiction|].
  cbn [history_rows] in H. inv_bind H. rename a into riwayat.
  inv_bind H. rename a into sub. inv_bind H. rename a into rest.
  destruct Hi as [->|Hi]; [|eapply IH; eauto].
  destruct (truthy riwayat) eqn:T.
  - inv_bind E0. rename a into temp.
    destruct (DataFrame_of_truthy _ _ T E2) as [recs [_ ->]].
    destruct (add_columns_spec df i cols_facilities _ _ E0
                (frame_of_records_well_formed recs)) as [_ [_ [_ [_ [Cells _]]]]].
    apply Cells, Hc.
  - destruct (synthesize_row_spec _ _ _ _ E0) as [_ [N HC]].
    destruct (single_row sub N) as [row Hrow]. rewrite Hrow in HC.
    inversion HC as [|? ? Hr _]; subst.
    destruct (Hr c Hc) as [w [Hw _]]. exists w. exact Hw.
Qed.

(** When [extract_pefindo_data] returns, each of the thirteen key labels
    and each of the labels [riwayat_fasilitas], [agunan] and [penjamin]
    occurs exactly once among the columns of the facilities table: no
    facility key collides with a cleaned report label. *)
Theorem facilities_labels_unambiguous (json_df : DataFrame) (t : tables)
  (c : string) :
  extract_pefindo_data json_df = Ok t ->
  In c (cols_facilities ++ ["riwayat_fasilitas"; "agunan"; "penjamin"]) ->
  occurrences c (columns (pefindo_facilities t)) = 1.
Proof.
  intros H Hc.
  destruct (pipeline_ok _ _ H) as [_ [_ [Hh [Hco [Hgu _]]]]].
  destruct (reconciler_has_history _ _ Hh) as [i [Hi T]].
  assert (Hseq : In i (seq 0 (nrows (pefindo_facilities t))))
    by (apply in_seq; lia).
  apply in_app_or in Hc. destruct Hc as [Hc|[<-|[<-|[<-|[]]]]].
  - unfold extract_facilities_history in Hh.
    inv_bind Hh. inv_bind Hh. inv_bind Hh.
    destruct (history_rows_reads _ _ _ _ E1 i c Hseq Hc) as [w Hw].
    apply (cell_ok_unique _ _ _ _ Hw).
  - unfold array_cell in T.
    destruct (cell (pefindo_facilities t) "riwayat_fasilitas" i) eqn:E;
      try discriminate.
    apply (cell_ok_unique _ _ _ _ E).
  - unfold extract_list_to_dataframe in Hco. inv_bind Hco.
    destruct (expand_rows_reads_array _ _ _ _ _ E i Hseq) as [w Hw].
    apply (cell_ok_unique _ _ _ _ Hw).
  - unfold extract_list_to_dataframe in Hgu. inv_bind Hgu.
    destruct (expand_rows_reads_array _ _ _ _ _ E i Hseq) as [w Hw].
    apply (cell_ok_unique _ _ _ _ Hw).
Qed.

Lemma facilities_labels_unambiguous_witness :
  occurrences "npwp" (columns (pefindo_facilities sample_tables)) = 1.
Proof.
  apply (facilities_labels_unambiguous sample_report sample_tables "npwp").
  - vm_compute. reflexivity.
  - simpl. tauto.
Defined.

(** The List Expander returns either the empty table without columns, when
    no row has a non-empty array, or a table with at least one row that has
    a column for every carry label: never a table with columns and no rows. *)
Theorem expander_empty_or_populated (df : DataFrame) (col : string)
  (carry : list string) (out : DataFrame) :
  extract_list_to_dataframe df col carry = Ok out ->
  (out = empty_frame /\ owners df col = [])
  \/ (0 < nrows out /\ forall c, In c carry -> In (clean_name c) (columns out)).
Proof.
  intros H. destruct (expander_spec _ _ _ _ H) as [u [_ [_ [Ho _]]]].
  unfold extract_list_to_dataframe in H. inv_bind H. rename a into subs.
  pose proof (expand_rows_subs _ _ _ _ _ E) as Hs.
  destruct subs as [|f fs].
  - injection H as <-. left. split; [reflexivity|].
    simpl in Ho. inversion Ho. reflexivity.
  - inv_bind H. rename a into r. destruct (clean_columns_ok _ _ H) as [Hlab ->]. right.
    destruct (concat_ok _ _ E0) as [_ [Hc [Hd _]]].
    inversion Hs as [|? ? [Hn Hl] _]; subst.
    unfold nrows. cbn [columns data]. split.
    + rewrite Hd. cbn [flat_map]. rewrite length_app, length_map.
      unfold nrows in Hn. lia.
    + intros c Hcarry. apply in_map. rewrite Hc. apply dedup_In.
      cbn [flat_map]. apply in_or_app. left. apply Hl, Hcarry.
Qed.

Lemma expander_empty_or_populated_witness :
  (ragged_expansion = empty_frame /\ owners ragged_table "items" = [])
  \/ (0 < nrows ragged_expansion
      /\ forall c, In c ["fk"] -> In (clean_name c) (columns ragged_expansion)).
Proof.
  apply (expander_empty_or_populated ragged_table "items" ["fk"]).
  vm_compute. reflexivity.
Defined.
